(** * A shallow embedding of [decam/makeCrosstalkDecam.py]

    The crosstalk converter reads a vendor text table line by line and
    builds a dictionary, keyed on canonical victim detector names, of
    per-detector dictionaries in the shape expected by
    [lsst.ip.isr.CrosstalkCalib.fromDict].

    Modelling choices:
    - the file is the list of lines its iterator yields ([for line in f]);
    - Python dicts (which keep insertion order) are association lists
      updated in place ([dset]);
    - the 2x2 numpy arrays are lists of rows; an out-of-range item
      assignment raises [IndexError] as numpy does;
    - [float(...)] is a parameter [py_float] of the development: it yields
      [None] where Python raises [ValueError]; [zero] is numpy's [0.0];
    - [readFile]'s body runs in a state-and-exception monad over the
      accumulating [outDict]; an exception carries the dictionary as it
      was when the exception was raised. *)

From Stdlib Require Import String Ascii List Bool Arith Lia ZArith QArith.
Import ListNotations.
Close Scope Q_scope.
Local Open Scope string_scope.
Local Open Scope list_scope.

(** ** Python strings *)

(** [str.isspace] on an ASCII character: [\t\n\v\f\r], [\x1c]-[\x1f] and
    the space. *)
Definition is_space (c : ascii) : bool :=
  let n := nat_of_ascii c in
  (Nat.leb 9 n && Nat.leb n 13) || (Nat.leb 28 n && Nat.leb n 32).

Fixpoint lstrip (s : string) : string :=
  match s with
  | EmptyString => EmptyString
  | String c r => if is_space c then lstrip r else s
  end.

Fixpoint rstrip (s : string) : string :=
  match s with
  | EmptyString => EmptyString
  | String c r =>
      let r' := rstrip r in
      match r' with
      | EmptyString => if is_space c then EmptyString else String c EmptyString
      | _ => String c r'
      end
  end.

(** [line.strip()] *)
Definition strip (s : string) : string := rstrip (lstrip s).

(** [li.startswith('#')] *)
Definition startswith_hash (s : string) : bool :=
  match s with
  | String c _ => Ascii.eqb c "#"%char
  | EmptyString => false
  end.

Definition starts_nonspace (s : string) : bool :=
  match s with
  | String c _ => negb (is_space c)
  | EmptyString => false
  end.

(** [li.split()]: maximal runs of non-whitespace characters. *)
Fixpoint split_ws (s : string) : list string :=
  match s with
  | EmptyString => []
  | String c r =>
      let ws := split_ws r in
      if is_space c then ws
      else if starts_nonspace r then
        match ws with
        | w :: ws' => String c w :: ws'
        | [] => [String c EmptyString]
        end
      else String c EmptyString :: ws
  end.

(** [sub in s] *)
Fixpoint str_contains (sub s : string) : bool :=
  match s with
  | EmptyString => String.prefix sub s
  | String _ r => String.prefix sub s || str_contains sub r
  end.

(** [s.replace(sub, "")], scanning left to right. *)
Fixpoint replace_go (fuel : nat) (sub s : string) : string :=
  match fuel with
  | O => s
  | S fuel' =>
      match s with
      | EmptyString => EmptyString
      | String c r =>
          if String.prefix sub s
          then replace_go fuel' sub
                 (substring (String.length sub) (String.length s - String.length sub) s)
          else String c (replace_go fuel' sub r)
      end
  end.

Definition str_replace_empty (sub s : string) : string :=
  replace_go (S (String.length s)) sub s.

(** ** Python dicts, in insertion order *)

Fixpoint dget {V : Type} (k : string) (d : list (string * V)) : option V :=
  match d with
  | [] => None
  | (k', v) :: d' => if String.eqb k k' then Some v else dget k d'
  end.

(** [d[k] = v]: overwrite in place, or append a new key. *)
Fixpoint dset {V : Type} (k : string) (v : V) (d : list (string * V))
  : list (string * V) :=
  match d with
  | [] => [(k, v)]
  | (k', v') :: d' =>
      if String.eqb k k' then (k', v) :: d' else (k', v') :: dset k v d'
  end.

(** [k in d] *)
Definition dmem {V : Type} (k : string) (d : list (string * V)) : bool :=
  match dget k d with Some _ => true | None => false end.

(** ** The fixed tables of [readFile] *)

Definition ampIndexMap : list (string * nat) := [("A", 0); ("B", 1)].

Definition detMap : list (string * string) :=
  [("ccd01", "S29"); ("ccd02", "S30"); ("ccd03", "S31"); ("ccd04", "S25"); ("ccd05", "S26");
   ("ccd06", "S27"); ("ccd07", "S28"); ("ccd08", "S20"); ("ccd09", "S21"); ("ccd10", "S22");
   ("ccd11", "S23"); ("ccd12", "S24"); ("ccd13", "S14"); ("ccd14", "S15"); ("ccd15", "S16");
   ("ccd16", "S17"); ("ccd17", "S18"); ("ccd18", "S19"); ("ccd19", "S8"); ("ccd20", "S9");
   ("ccd21", "S10"); ("ccd22", "S11"); ("ccd23", "S12"); ("ccd24", "S13"); ("ccd25", "S1");
   ("ccd26", "S2"); ("ccd27", "S3"); ("ccd28", "S4"); ("ccd29", "S5"); ("ccd30", "S6");
   ("ccd31", "S7"); ("ccd32", "N1"); ("ccd33", "N2"); ("ccd34", "N3"); ("ccd35", "N4");
   ("ccd36", "N5"); ("ccd37", "N6"); ("ccd38", "N7"); ("ccd39", "N8"); ("ccd40", "N9");
   ("ccd41", "N10"); ("ccd42", "N11"); ("ccd43", "N12"); ("ccd44", "N13"); ("ccd45", "N14");
   ("ccd46", "N15"); ("ccd47", "N16"); ("ccd48", "N17"); ("ccd49", "N18"); ("ccd50", "N19");
   ("ccd51", "N20"); ("ccd52", "N21"); ("ccd53", "N22"); ("ccd54", "N23"); ("ccd55", "N24");
   ("ccd56", "N25"); ("ccd57", "N26"); ("ccd58", "N27"); ("ccd59", "N28"); ("ccd60", "N29");
   ("ccd61", "N30"); ("ccd62", "N31")].

(** ** Python exceptions raised by [readFile] *)

Inductive exc : Type :=
| IndexError                  (** [elem[i]] on a short line, or a numpy index *)
| ValueError (tok : string)    (** [float(tok)] *)
| RuntimeError (msg : string)  (** [raise RuntimeError(f"Unknown amp: ...")] *)
| KeyError (key : string).     (** [d[key]] on a missing key *)

Inductive outcome (A : Type) : Type :=
| Return (a : A)
| Raise (e : exc).
Arguments Return {A} a.
Arguments Raise {A} e.

(** ** A concrete [float] for evaluating examples

    Decimal literals as Python's [float] reads them: an optional sign,
    digits with an optional fraction, an optional exponent; the value is
    the exact rational the literal denotes.  (Python also accepts [inf],
    [nan] and digit underscores, which the examples below never use.) *)

Definition digit_val (c : ascii) : option Z :=
  let n := nat_of_ascii c in
  if Nat.leb 48 n && Nat.leb n 57 then Some (Z.of_nat (n - 48)) else None.

(** The longest prefix of decimal digits, and the rest. *)
Fixpoint take_digits (s : string) : list Z * string :=
  match s with
  | EmptyString => ([], EmptyString)
  | String c r =>
      match digit_val c with
      | Some d => let (ds, rest) := take_digits r in (d :: ds, rest)
      | None => ([], s)
      end
  end.

Definition z_of_digits (ds : list Z) : Z :=
  fold_left (fun acc d => acc * 10 + d)%Z ds 0%Z.

Definition take_sign (s : string) : Z * string :=
  match s with
  | String c r =>
      if Ascii.eqb c "-"%char then ((-1)%Z, r)
      else if Ascii.eqb c "+"%char then (1%Z, r)
      else (1%Z, s)
  | EmptyString => (1%Z, s)
  end.

Definition decimal_float (tok : string) : option Q :=
  let (sg, s1) := take_sign tok in
  let (ip, s2) := take_digits s1 in
  let (fp, s3) :=
    match s2 with
    | String c r => if Ascii.eqb c "."%char then take_digits r else ([], s2)
    | EmptyString => ([], s2)
    end in
  let has_dot := match s2 with String c _ => Ascii.eqb c "."%char | _ => false end in
  match ip ++ fp with
  | [] => None
  | mds =>
      let exp_part :=
        match s3 with
        | EmptyString => Some 0%Z
        | String c r =>
            if Ascii.eqb c "e"%char || Ascii.eqb c "E"%char then
              let (esg, s4) := take_sign r in
              let (eds, s5) := take_digits s4 in
              match eds, s5 with
              | _ :: _, EmptyString => Some (esg * z_of_digits eds)%Z
              | _, _ => None
              end
            else None
        end in
      match exp_part with
      | None => None
      | Some ex =>
          let mant := (sg * z_of_digits mds)%Z in
          let d := (Z.of_nat (length fp) - ex)%Z in
          if (0 <=? d)%Z then Some (Qmake mant (Z.to_pos (10 ^ d)))
          else Some (Qmake (mant * 10 ^ (- d)) 1)
      end
  end.

(** The amp label as the spec words it: the first ['A'] or ['B'] met when
    scanning the token from left to right. *)
Fixpoint spec_first_amp (tok : string) : option string :=
  match tok with
  | EmptyString => None
  | String c r =>
      if Ascii.eqb c "A"%char then Some "A"
      else if Ascii.eqb c "B"%char then Some "B"
      else spec_first_amp r
  end.

(** A newline, ending the lines a file iterator yields. *)
Definition nl : string := String (ascii_of_nat 10) EmptyString.

Section Crosstalk.

(** The values of numpy's float64 arrays, numpy's [0.0], and Python's
    [float(tok)] ([None] where it raises [ValueError]). *)
Variable R : Type.
Variable zero : R.
Variable py_float : string -> option R.

(** ** numpy 2x2 arrays *)

Definition mat := list (list R).

(** [np.zeros_like([], shape=(2, 2))] *)
Definition zeros22 : mat := [[zero; zero]; [zero; zero]].

(** [l[i] = x] on a list or array row; [None] where Python raises. *)
Fixpoint list_setitem {A : Type} (l : list A) (i : nat) (x : A) : option (list A) :=
  match l, i with
  | [], _ => None
  | _ :: l', O => Some (x :: l')
  | y :: l', S i' => option_map (cons y) (list_setitem l' i' x)
  end.

(** [m[i][j] = x] *)
Definition mat_setitem (m : mat) (i j : nat) (x : R) : option mat :=
  match nth_error m i with
  | None => None
  | Some row =>
      match list_setitem row j x with
      | None => None
      | Some row' => list_setitem m i row'
      end
  end.

(** [m[i][j]] *)
Definition mat_get (m : mat) (i j : nat) : option R :=
  match nth_error m i with
  | None => None
  | Some row => nth_error row j
  end.

(** [m.transpose()] on a 2-D array with [ncols] columns. *)
Definition transpose (m : mat) : mat :=
  let ncols := match m with [] => 0 | row :: _ => length row end in
  map (fun j => map (fun row => nth j row zero) m) (seq 0 ncols).

(** ** The per-detector dictionary *)

(** [outDict[victimDet]]: the keys [readFile] writes.  [DETECTOR] and
    [DETECTOR_SERIAL] are [None] while the key is absent; [metadata] is the
    [PropertyList] as its key/value pairs. *)
Record entry : Type := mkEntry {
  metadata : list (string * string);
  interChip : list (string * mat);
  crosstalkShape : nat * nat;
  hasCrosstalk : bool;
  nAmp : nat;
  coeffs : mat;
  DETECTOR : option string;
  DETECTOR_SERIAL : option string
}.

Definition set_metadata (md : list (string * string)) (e : entry) : entry :=
  mkEntry md (interChip e) (crosstalkShape e) (hasCrosstalk e) (nAmp e)
          (coeffs e) (DETECTOR e) (DETECTOR_SERIAL e).
Definition set_interChip (ic : list (string * mat)) (e : entry) : entry :=
  mkEntry (metadata e) ic (crosstalkShape e) (hasCrosstalk e) (nAmp e)
          (coeffs e) (DETECTOR e) (DETECTOR_SERIAL e).
Definition set_coeffs (c : mat) (e : entry) : entry :=
  mkEntry (metadata e) (interChip e) (crosstalkShape e) (hasCrosstalk e) (nAmp e)
          c (DETECTOR e) (DETECTOR_SERIAL e).
Definition set_DETECTOR (d : option string) (e : entry) : entry :=
  mkEntry (metadata e) (interChip e) (crosstalkShape e) (hasCrosstalk e) (nAmp e)
          (coeffs e) d (DETECTOR_SERIAL e).
Definition set_DETECTOR_SERIAL (d : option string) (e : entry) : entry :=
  mkEntry (metadata e) (interChip e) (crosstalkShape e) (hasCrosstalk e) (nAmp e)
          (coeffs e) (DETECTOR e) d.

(** Lines 99-108: the dictionary created for a new victim detector
    ([metadata['OBSTYPE'] = 'CROSSTALK']; the [if 'coeffs' not in ...]
    test is always true on the fresh dictionary). *)
Definition new_entry : entry :=
  mkEntry [("OBSTYPE", "CROSSTALK")] [] (2, 2) true 2 zeros22 None None.

Definition outDict := list (string * entry).

(** ** State-and-exception monad over [outDict] *)

Definition M (A : Type) : Type := outDict -> outcome A * outDict.

Definition ret {A : Type} (a : A) : M A := fun s => (Return a, s).

Definition bind {A B : Type} (m : M A) (k : A -> M B) : M B :=
  fun s =>
    match m s with
    | (Return a, s') => k a s'
    | (Raise e, s') => (Raise e, s')
    end.

Definition raise {A : Type} (e : exc) : M A := fun s => (Raise e, s).
Definition get : M outDict := fun s => (Return s, s).
Definition put (s : outDict) : M unit := fun _ => (Return tt, s).

Local Notation "x <- m ;; k" := (bind m (fun x => k))
  (at level 61, m at next level, right associativity).

Definition lift_opt {A : Type} (o : option A) (e : exc) : M A :=
  match o with Some a => ret a | None => raise e end.

(** [l[i]] on a Python list *)
Definition getitem_list {A : Type} (l : list A) (i : nat) : M A :=
  lift_opt (nth_error l i) IndexError.

(** [d[k]] on a dict *)
Definition getitem_dict {V : Type} (d : list (string * V)) (k : string) : M V :=
  lift_opt (dget k d) (KeyError k).

(** [float(tok)] *)
Definition float_m (tok : string) : M R :=
  lift_opt (py_float tok) (ValueError tok).

(** [m[i][j] = x] on a numpy array *)
Definition setitem_mat (m : mat) (i j : nat) (x : R) : M mat :=
  lift_opt (mat_setitem m i j x) IndexError.

(** Lines 76-81 (and 83-88 for the source token). *)
Definition decode_amp (detAmp : string) : M string :=
  if str_contains "A" detAmp then ret "A"
  else if str_contains "B" detAmp then ret "B"
  else raise (RuntimeError ("Unknown amp: " ++ detAmp)%string).

(** One decoded input line: detectors after [detMap], amps after
    [ampIndexMap]. *)
Record xrecord : Type := mkRecord {
  victimDet : string;
  sourceDet : string;
  victimAmp : nat;
  sourceAmp : nat;
  coeff : R
}.

(** Lines 68-96: everything the loop body does before it touches
    [outDict].  [None] for a comment line. *)
Definition parse_line (line : string) : M (option xrecord) :=
  let li := strip line in
  if startswith_hash li then ret None else
  let elem := split_ws li in
  victimDetAmp <- getitem_list elem 0 ;;
  sourceDetAmp <- getitem_list elem 1 ;;
  tok <- getitem_list elem 2 ;;
  c <- float_m tok ;;
  vAmp <- decode_amp victimDetAmp ;;
  sAmp <- decode_amp sourceDetAmp ;;
  let vDet0 := str_replace_empty vAmp victimDetAmp in
  let sDet0 := str_replace_empty sAmp sourceDetAmp in
  vDet <- getitem_dict detMap vDet0 ;;
  sDet <- getitem_dict detMap sDet0 ;;
  vi <- getitem_dict ampIndexMap vAmp ;;
  si <- getitem_dict ampIndexMap sAmp ;;
  ret (Some (mkRecord vDet sDet vi si c)).

(** [outDict[k] = f(outDict[k])] *)
Definition update_entry (k : string) (f : entry -> M entry) : M unit :=
  out <- get ;;
  e <- getitem_dict out k ;;
  e' <- f e ;;
  out' <- get ;;
  put (dset k e' out').

(** Lines 98-119: the writes into [outDict], statement by statement. *)
Definition apply_record (r : xrecord) : M unit :=
  let vd := victimDet r in
  let sd := sourceDet r in
  let vi := victimAmp r in
  let si := sourceAmp r in
  let x := coeff r in
  out <- get ;;
  _ <- (if dmem vd out then ret tt else put (dset vd new_entry out)) ;;
  if String.eqb sd vd then
    _ <- update_entry vd (fun e => ret (set_metadata (dset "DETECTOR" vd (metadata e)) e)) ;;
    _ <- update_entry vd (fun e =>
           ret (set_metadata (dset "DETECTOR_SERIAL" "UNKNOWN" (metadata e)) e)) ;;
    _ <- update_entry vd (fun e => ret (set_DETECTOR (Some vd) e)) ;;
    _ <- update_entry vd (fun e => ret (set_DETECTOR_SERIAL (Some "UNKNOWN") e)) ;;
    update_entry vd (fun e => c <- setitem_mat (coeffs e) vi si x ;; ret (set_coeffs c e))
  else
    _ <- update_entry vd (fun e =>
           if dmem sd (interChip e) then ret e
           else ret (set_interChip (dset sd zeros22 (interChip e)) e)) ;;
    update_entry vd (fun e =>
      m <- getitem_dict (interChip e) sd ;;
      m' <- setitem_mat m vi si x ;;
      ret (set_interChip (dset sd m' (interChip e)) e)).

(** The loop body, lines 68-119. *)
Definition process_line (line : string) : M unit :=
  o <- parse_line line ;;
  match o with
  | None => ret tt
  | Some r => apply_record r
  end.

(** [for line in f: ...] *)
Fixpoint run_lines (lines : list string) : M unit :=
  match lines with
  | [] => ret tt
  | l :: ls => _ <- process_line l ;; run_lines ls
  end.

(** [readFile(fromFile)] on the file's lines: the returned [outDict], or
    the exception that escapes. *)
Definition readFile (lines : list string) : outcome outDict :=
  match run_lines lines [] with
  | (Return _, out) => Return out
  | (Raise e, _) => Raise e
  end.

(** The dictionary as it stands when [readFile] returns or raises. *)
Definition readFile_state (lines : list string) : outDict :=
  snd (run_lines lines []).

(** Line 22: the dictionary [makeDetectorCrosstalk] hands to
    [CrosstalkCalib.fromDict], its [coeffs] transposed in place. *)
Definition makeDetectorCrosstalk (dataDict : entry) : entry :=
  set_coeffs (transpose (coeffs dataDict)) dataDict.

(** ** Auxiliary notions for the statements *)

(** The record a line decodes to ([None] for a comment line or a line
    that raises); [parse_line] never reads the state. *)
Definition line_record (l : string) : option xrecord :=
  match parse_line l [] with
  | (Return o, _) => o
  | (Raise _, _) => None
  end.

(** Record [r] writes the cell [(vd, sd, i, j)]. *)
Definition targets (vd sd : string) (i j : nat) (r : xrecord) : bool :=
  String.eqb (victimDet r) vd && String.eqb (sourceDet r) sd
  && Nat.eqb (victimAmp r) i && Nat.eqb (sourceAmp r) j.

Definition line_targets (vd sd : string) (i j : nat) (l : string) : bool :=
  match line_record l with
  | Some r => targets vd sd i j r
  | None => false
  end.

(** The coefficient of the last line of [lines] that writes the cell. *)
Fixpoint last_coeff (lines : list string) (vd sd : string) (i j : nat) : option R :=
  match lines with
  | [] => None
  | l :: ls =>
      match last_coeff ls vd sd i j with
      | Some c => Some c
      | None =>
          match line_record l with
          | Some r => if targets vd sd i j r then Some (coeff r) else None
          | None => None
          end
      end
  end.

(** The cell [(vd, sd, i, j)] of a result: [outDict[vd]['coeffs'][i][j]]
    when [sd = vd], [outDict[vd]['interChip'][sd][i][j]] otherwise. *)
Definition cell (out : outDict) (vd sd : string) (i j : nat) : option R :=
  match dget vd out with
  | None => None
  | Some e =>
      if String.eqb sd vd then mat_get (coeffs e) i j
      else match dget sd (interChip e) with
           | None => None
           | Some m => mat_get m i j
           end
  end.

Definition dflt (o : option R) : R := match o with Some x => x | None => zero end.

(** The cell's value, [0.0] where the cell does not exist (yet). *)
Definition cellz (out : outDict) (vd sd : string) (i j : nat) : R :=
  dflt (cell out vd sd i j).

(** The cell exists: the victim's entry, and for [sd <> vd] its
    [interChip[sd]] matrix, are present. *)
Definition has_cell (out : outDict) (vd sd : string) : bool :=
  match dget vd out with
  | Some e => String.eqb sd vd || dmem sd (interChip e)
  | None => false
  end.

(** Line [l] decodes to a self-referential record of victim [d]. *)
Definition line_self (d : string) (l : string) : bool :=
  match line_record l with
  | Some r => String.eqb (victimDet r) d && String.eqb (sourceDet r) d
  | None => false
  end.

(** Some line of [lines] is a self-referential record of victim [d]. *)
Definition self_seen (d : string) (lines : list string) : bool :=
  existsb (line_self d) lines.

(** The four [DETECTOR] fields of an entry, set for detector [d]
    (top level and in [metadata]). *)
Definition det_set (d : string) (e : entry) : Prop :=
  DETECTOR e = Some d /\ DETECTOR_SERIAL e = Some "UNKNOWN" /\
  dget "DETECTOR" (metadata e) = Some d /\
  dget "DETECTOR_SERIAL" (metadata e) = Some "UNKNOWN".

(** The four [DETECTOR] fields of an entry, all absent. *)
Definition det_unset (e : entry) : Prop :=
  DETECTOR e = None /\ DETECTOR_SERIAL e = None /\
  dget "DETECTOR" (metadata e) = None /\ dget "DETECTOR_SERIAL" (metadata e) = None.

(** Metadata invariant of the dictionaries [readFile] builds. *)
Definition meta_inv (s : outDict) : Prop :=
  forall d e, dget d s = Some e ->
    hasCrosstalk e = true /\ dget "OBSTYPE" (metadata e) = Some "CROSSTALK" /\
    (det_set d e \/ det_unset e).

Definition set_in (s : outDict) (d : string) : Prop :=
  exists e, dget d s = Some e /\ det_set d e.

(** The amp label [decode_amp] picks for a token it accepts. *)
Definition amp_of (tok : string) : string :=
  if str_contains "A" tok then "A" else "B".

Definition is_mat22 (m : mat) : Prop :=
  exists a b c d, m = [[a; b]; [c; d]].

(** Shape invariant of the dictionaries [readFile] builds. *)
Definition wf (s : outDict) : Prop :=
  forall k e, dget k s = Some e ->
    is_mat22 (coeffs e) /\ dget k (interChip e) = None /\
    (forall k' m, dget k' (interChip e) = Some m -> is_mat22 m).

(** The closed form of [apply_record]. *)
Definition entry0 (s : outDict) (vd : string) : entry :=
  match dget vd s with Some e => e | None => new_entry end.

Definition mat_upd (m : mat) (i j : nat) (x : R) : mat :=
  match mat_setitem m i j x with Some m' => m' | None => m end.

Definition self_update (vd : string) (i j : nat) (x : R) (e0 : entry) : entry :=
  set_coeffs (mat_upd (coeffs e0) i j x)
    (set_DETECTOR_SERIAL (Some "UNKNOWN")
      (set_DETECTOR (Some vd)
        (set_metadata (dset "DETECTOR_SERIAL" "UNKNOWN" (dset "DETECTOR" vd (metadata e0)))
          e0))).

Definition inter_update (sd : string) (i j : nat) (x : R) (e0 : entry) : entry :=
  let ic := interChip e0 in
  let m0 := match dget sd ic with Some m => m | None => zeros22 end in
  set_interChip (dset sd (mat_upd m0 i j x) ic) e0.

Definition apply_pure (r : xrecord) (s : outDict) : outDict :=
  let vd := victimDet r in
  let e0 := entry0 s vd in
  if String.eqb (sourceDet r) vd
  then dset vd (self_update vd (victimAmp r) (sourceAmp r) (coeff r) e0) s
  else dset vd (inter_update (sourceDet r) (victimAmp r) (sourceAmp r) (coeff r) e0) s.

(** A computation that neither reads nor writes the state. *)
Definition pure {A : Type} (m : M A) : Prop :=
  exists o, forall s, m s = (o, s).

(** The cell value read from the victim's entry, [new_entry] if absent. *)
Definition cellz_entry (e : entry) (vd sd : string) (i j : nat) : R :=
  if String.eqb sd vd then dflt (mat_get (coeffs e) i j)
  else match dget sd (interChip e) with
       | Some m => dflt (mat_get m i j)
       | None => zero
       end.

(** [readFile]'s effect on [outDict] of one line, for a line that does not
    raise. *)
Definition step_pure (s : outDict) (l : string) : outDict :=
  match line_record l with Some r => apply_pure r s | None => s end.

(** Python dict insertion order: the keys [acc], then each key of [ks]
    that is not yet present, in order of first appearance. *)
Fixpoint add_keys (acc ks : list string) : list string :=
  match ks with
  | [] => acc
  | k :: ks' => add_keys (if existsb (String.eqb k) acc then acc else acc ++ [k]) ks'
  end.

(** The victim detector of a decoded line. *)
Definition victim_of (l : string) : list string :=
  match line_record l with Some r => [victimDet r] | None => [] end.

(** The victim detectors of the decoded lines, in file order. *)
Definition victims (lines : list string) : list string := flat_map victim_of lines.

(** The source detector of a decoded inter-chip line of victim [vd]. *)
Definition inter_source_of (vd : string) (l : string) : list string :=
  match line_record l with
  | Some r =>
      if String.eqb (victimDet r) vd && negb (String.eqb (sourceDet r) vd)
      then [sourceDet r] else []
  | None => []
  end.

Definition inter_sources (vd : string) (lines : list string) : list string :=
  flat_map (inter_source_of vd) lines.

(** The canonical detector names: the values of [detMap]. *)
Definition canonical_names : list string := map snd detMap.

(** Line [l] decodes to a record of victim [vd] that needs the cell's
    matrix: any record of [vd] for its [coeffs], an inter-chip record from
    [sd] for [interChip[sd]]. *)
Definition line_hits (vd sd : string) (l : string) : bool :=
  match line_record l with
  | Some r => String.eqb (victimDet r) vd && (String.eqb sd vd || String.eqb (sourceDet r) sd)
  | None => false
  end.

(** ** The driver: [makeDetectorCrosstalk] (lines 14-28) and the
    [__main__] block (lines 123-147)

    The [lsst] calls the driver makes are outside this repository and are
    parameters: [CrosstalkCalib.fromDict] ([None] where it raises), the
    calib's [updateMetadata(setDate=True)], and
    [DecamMapper.getCrosstalkDir()], a fixed directory.  The file-system
    calls themselves ([os.makedirs], [writeFits]) are events of a trace. *)

Variable calib : Type.
Variable fromDict : entry -> option calib.
Variable updateMetadata : calib -> calib.
Variable crosstalkDir : string.

(** What the driver does to the outside world, in order. *)
Inductive event : Type :=
| PrintExists (dir : string)                  (** line 135 *)
| PrintReplacing (dir : string)               (** line 137 *)
| PrintCreating (dir : string)                (** line 139 *)
| Makedirs (dir : string)                     (** line 140 *)
| PrintHasCrosstalk (det : string) (b : bool) (** line 143 *)
| PrintCoeff (m : mat)                        (** line 144 *)
| PrintInterChip (src : string) (m : mat)     (** line 146 *)
| WriteFits (ct : calib) (path : string).     (** line 28 *)

(** How the driver stops early. *)
Inductive stop : Type :=
| PyError (e : exc)         (** an exception of [readFile] or of [dataDict['DETECTOR']] *)
| FromDictError             (** [CrosstalkCalib.fromDict] raised *)
| SystemExit (code : nat).  (** [sys.exit(code)] *)

Inductive io_result (A : Type) : Type :=
| Done (a : A)
| Stopped (e : stop).
Arguments Done {A} a.
Arguments Stopped {A} e.

(** The driver's state: [outDict], whose per-detector dictionaries
    [makeDetectorCrosstalk] mutates in place, and the trace so far. *)
Record world : Type := mkWorld { store : outDict; events : list event }.

Definition IO (A : Type) : Type := world -> io_result A * world.

Definition io_ret {A : Type} (a : A) : IO A := fun w => (Done a, w).

Definition io_bind {A B : Type} (m : IO A) (k : A -> IO B) : IO B :=
  fun w =>
    match m w with
    | (Done a, w') => k a w'
    | (Stopped e, w') => (Stopped e, w')
    end.

Definition io_stop {A : Type} (e : stop) : IO A := fun w => (Stopped e, w).

Definition io_lift {A : Type} (o : option A) (e : stop) : IO A :=
  match o with Some a => io_ret a | None => io_stop e end.

Definition emit (ev : event) : IO unit :=
  fun w => (Done tt, mkWorld (store w) (events w ++ [ev])).

(** [outDict[k]] *)
Definition io_get (k : string) : IO entry :=
  fun w => match dget k (store w) with
           | Some e => (Done e, w)
           | None => (Stopped (PyError (KeyError k)), w)
           end.

(** [outDict[k] = e] *)
Definition io_set (k : string) (e : entry) : IO unit :=
  fun w => (Done tt, mkWorld (dset k e (store w)) (events w)).

Local Notation "x <~ m ;; k" := (io_bind m (fun x => k))
  (at level 61, m at next level, right associativity).

(** [makeDetectorCrosstalk(dataDict=outDict[k])]: [dataDict] is the
    dictionary [outDict] holds under [k], so the assignment of line 22 is
    made in [outDict] itself. *)
Definition makeDetectorCrosstalk_io (k : string) (dataDict : entry) : IO unit :=
  let dataDict := makeDetectorCrosstalk dataDict in
  _ <~ io_set k dataDict ;;
  decamCT <~ io_lift (fromDict dataDict) FromDictError ;;
  let decamCT := updateMetadata decamCT in
  let outDir := crosstalkDir in
  detName <~ io_lift (DETECTOR dataDict) (PyError (KeyError "DETECTOR")) ;;
  emit (WriteFits decamCT (outDir ++ "/" ++ detName ++ ".fits")).

(** Lines 145-146: one line per [interChip] matrix, in key order (the keys
    of a dict are distinct, so [interChip[source]] is the matrix paired
    with [source]). *)
Fixpoint print_interChip (ic : list (string * mat)) : IO unit :=
  match ic with
  | [] => io_ret tt
  | (source, m) :: ic' => _ <~ emit (PrintInterChip source m) ;; print_interChip ic'
  end.

(** Lines 143-146, the [--verbose] summary of one detector. *)
Definition print_summary (detName : string) : IO unit :=
  e <~ io_get detName ;;
  _ <~ emit (PrintHasCrosstalk detName (hasCrosstalk e)) ;;
  _ <~ emit (PrintCoeff (coeffs e)) ;;
  print_interChip (interChip e).

(** Lines 141-147: [for detName in outDict: ...]. *)
Fixpoint main_loop (verbose : bool) (keys : list string) : IO unit :=
  match keys with
  | [] => io_ret tt
  | detName :: keys' =>
      _ <~ (if verbose then print_summary detName else io_ret tt) ;;
      dataDict <~ io_get detName ;;
      _ <~ makeDetectorCrosstalk_io detName dataDict ;;
      main_loop verbose keys'
  end.

(** Lines 132-140: the output directory. *)
Definition prepare_dir (dirExists force : bool) : IO unit :=
  if dirExists then
    if negb force then _ <~ emit (PrintExists crosstalkDir) ;; io_stop (SystemExit 1)
    else emit (PrintReplacing crosstalkDir)
  else _ <~ emit (PrintCreating crosstalkDir) ;; emit (Makedirs crosstalkDir).

(** Lines 123-147 on the lines of [cmd.fromFile], the [-v] and [-f] flags,
    and whether [os.path.exists(crosstalkDir)]. *)
Definition main (lines : list string) (dirExists verbose force : bool)
  : io_result unit * world :=
  match readFile lines with
  | Raise e => (Stopped (PyError e), mkWorld [] [])
  | Return outDict =>
      (_ <~ prepare_dir dirExists force ;; main_loop verbose (map fst outDict))
        (mkWorld outDict [])
  end.

(** The files a trace writes: each calib with its path. *)
Definition writes (evs : list event) : list (calib * string) :=
  flat_map (fun ev => match ev with WriteFits ct p => [(ct, p)] | _ => [] end) evs.

(** The [DETECTOR] fields of two dictionaries agree key by key. *)
Definition same_det (s1 s2 : outDict) : Prop :=
  forall k, option_map DETECTOR (dget k s1) = option_map DETECTOR (dget k s2).

(** The trace [--verbose] adds for one detector. *)
Definition summary_events (d : string) (e : entry) : list event :=
  PrintHasCrosstalk d (hasCrosstalk e) :: PrintCoeff (coeffs e) ::
  map (fun p => PrintInterChip (fst p) (snd p)) (interChip e).

(** The trace of one detector of [outDict] when nothing fails. *)
Definition driver_events (verbose : bool) (p : string * entry) : list event :=
  (if verbose then summary_events (fst p) (snd p) else []) ++
  match fromDict (makeDetectorCrosstalk (snd p)) with
  | Some ct => [WriteFits (updateMetadata ct) (crosstalkDir ++ "/" ++ fst p ++ ".fits")]
  | None => []
  end.

(** The directory events of [prepare_dir] when it does not exit. *)
Definition dir_events (dirExists : bool) : list event :=
  if dirExists then [PrintReplacing crosstalkDir]
  else [PrintCreating crosstalkDir; Makedirs crosstalkDir].

Definition transposed (p : string * entry) : string * entry :=
  (fst p, makeDetectorCrosstalk (snd p)).

(** ** Lemmas on dictionaries *)

Lemma dget_dset {V : Type} (k k' : string) (v : V) (d : list (string * V)) :
  dget k' (dset k v d) = if String.eqb k' k then Some v else dget k' d.
Proof.
  induction d as [|[k0 v0] d IH]; simpl.
  - destruct (String.eqb k' k); reflexivity.
  - destruct (String.eqb_spec k k0) as [->|Hne]; simpl.
    + destruct (String.eqb k' k0); reflexivity.
    + rewrite IH. destruct (String.eqb_spec k' k) as [->|]; simpl.
      * destruct (String.eqb_spec k k0); congruence.
      * reflexivity.
Qed.

Lemma dget_dset_eq {V : Type} (k : string) (v : V) d : dget k (dset k v d) = Some v.
Proof. rewrite dget_dset, String.eqb_refl. reflexivity. Qed.

Lemma dget_dset_neq {V : Type} (k k' : string) (v : V) d :
  k' <> k -> dget k' (dset k v d) = dget k' d.
Proof. intros H. rewrite dget_dset. apply String.eqb_neq in H. rewrite H. reflexivity. Qed.

Lemma dset_dset {V : Type} (k : string) (v v' : V) d :
  dset k v (dset k v' d) = dset k v d.
Proof.
  induction d as [|[k0 v0] d IH]; simpl.
  - rewrite String.eqb_refl. reflexivity.
  - destruct (String.eqb_spec k k0) as [->|Hne]; simpl.
    + rewrite String.eqb_refl. reflexivity.
    + apply String.eqb_neq in Hne. rewrite Hne, IH. reflexivity.
Qed.

Lemma dset_present {V : Type} (k : string) (v : V) d :
  dget k d = Some v -> dset k v d = d.
Proof.
  induction d as [|[k0 v0] d IH]; simpl; [discriminate|].
  destruct (String.eqb_spec k k0) as [->|Hne].
  - intros [= ->]. reflexivity.
  - intros H. rewrite IH by exact H. reflexivity.
Qed.

Lemma dmem_dget {V : Type} (k : string) (d : list (string * V)) :
  dmem k d = match dget k d with Some _ => true | None => false end.
Proof. reflexivity. Qed.
(** ** Lemmas on the monad *)

Lemma bind_ok {A B : Type} (m : M A) (k : A -> M B) s a s1 :
  m s = (Return a, s1) -> bind m k s = k a s1.
Proof. intros H. unfold bind. rewrite H. reflexivity. Qed.

Lemma bind_raise {A B : Type} (m : M A) (k : A -> M B) s e s1 :
  m s = (Raise e, s1) -> bind m k s = (Raise e, s1).
Proof. intros H. unfold bind. rewrite H. reflexivity. Qed.

Lemma bind_inv {A B : Type} (m : M A) (k : A -> M B) s b s' :
  bind m k s = (Return b, s') ->
  exists a s1, m s = (Return a, s1) /\ k a s1 = (Return b, s').
Proof.
  unfold bind. destruct (m s) as [[a|e] s1].
  - intros H. exists a, s1. split; [reflexivity|exact H].
  - discriminate.
Qed.

Lemma lift_opt_inv {A : Type} (o : option A) e s a s1 :
  lift_opt o e s = (Return a, s1) -> o = Some a /\ s1 = s.
Proof. destruct o; cbv; intros H; inversion H; subst; auto. Qed.

Lemma pure_ret {A : Type} (a : A) : pure (ret a).
Proof. exists (Return a). reflexivity. Qed.

Lemma pure_raise {A : Type} (e : exc) : pure (@raise A e).
Proof. exists (Raise e). reflexivity. Qed.

Lemma pure_lift_opt {A : Type} (o : option A) e : pure (lift_opt o e).
Proof. destruct o; [apply pure_ret | apply pure_raise]. Qed.

Lemma pure_bind {A B : Type} (m : M A) (k : A -> M B) :
  pure m -> (forall a, pure (k a)) -> pure (bind m k).
Proof.
  intros [o Ho] Hk. destruct o as [a|e].
  - destruct (Hk a) as [o' Ho']. exists o'. intros s.
    unfold bind. rewrite Ho. apply Ho'.
  - exists (Raise e). intros s. unfold bind. rewrite Ho. reflexivity.
Qed.

Lemma decode_amp_pure tok : pure (decode_amp tok).
Proof.
  unfold decode_amp.
  destruct (str_contains "A" tok); [apply pure_ret|].
  destruct (str_contains "B" tok); [apply pure_ret | apply pure_raise].
Qed.

Lemma parse_line_pure l : pure (parse_line l).
Proof.
  unfold parse_line. destruct (startswith_hash (strip l)); [apply pure_ret|].
  unfold getitem_list, getitem_dict, float_m.
  repeat (apply pure_bind; [first [apply pure_lift_opt | apply decode_amp_pure] | intros; cbv zeta]).
  apply pure_ret.
Qed.

Lemma parse_line_state l s : parse_line l s = (fst (parse_line l []), s).
Proof. destruct (parse_line_pure l) as [o Ho]. rewrite (Ho s), (Ho []). reflexivity. Qed.

Lemma line_record_of l s r s' :
  parse_line l s = (Return (Some r), s') -> line_record l = Some r /\ s' = s.
Proof.
  intros H. rewrite parse_line_state in H. unfold line_record.
  destruct (parse_line l []) as [o s0]. simpl in H. inversion H; subst. auto.
Qed.

Lemma line_record_parse l r s :
  line_record l = Some r -> parse_line l s = (Return (Some r), s).
Proof.
  unfold line_record. intros H. rewrite parse_line_state.
  destruct (parse_line l []) as [[o|e] s0]; simpl; [subst; reflexivity | discriminate].
Qed.

Lemma decode_amp_inv tok s a s1 :
  decode_amp tok s = (Return a, s1) ->
  a = amp_of tok /\ s1 = s /\ (str_contains "A" tok || str_contains "B" tok) = true.
Proof.
  unfold decode_amp, amp_of.
  destruct (str_contains "A" tok); simpl; [intros [= <- <-]; auto|].
  destruct (str_contains "B" tok); simpl; [intros [= <- <-]; auto | discriminate].
Qed.

Lemma decode_amp_ok tok s :
  (str_contains "A" tok || str_contains "B" tok) = true ->
  decode_amp tok s = (Return (amp_of tok), s).
Proof.
  unfold decode_amp, amp_of.
  destruct (str_contains "A" tok); simpl; [reflexivity|].
  intros ->. reflexivity.
Qed.

Ltac inv_bind H :=
  let a := fresh "a" in let s1 := fresh "s" in let Ha := fresh "Ha" in
  apply bind_inv in H; destruct H as (a & s1 & Ha & H).

(** What a decoded line is made of. *)
Lemma parse_line_inv l s r s' :
  parse_line l s = (Return (Some r), s') ->
  s' = s /\ startswith_hash (strip l) = false /\
  exists v so t rest,
    split_ws (strip l) = v :: so :: t :: rest /\
    py_float t = Some (coeff r) /\
    (str_contains "A" v || str_contains "B" v) = true /\
    (str_contains "A" so || str_contains "B" so) = true /\
    dget (str_replace_empty (amp_of v) v) detMap = Some (victimDet r) /\
    dget (str_replace_empty (amp_of so) so) detMap = Some (sourceDet r) /\
    dget (amp_of v) ampIndexMap = Some (victimAmp r) /\
    dget (amp_of so) ampIndexMap = Some (sourceAmp r).
Proof.
  unfold parse_line. destruct (startswith_hash (strip l)).
  { intros H. inversion H. }
  intros H. unfold getitem_list, getitem_dict, float_m in H.
  inv_bind H. apply lift_opt_inv in Ha as [Hv ->].
  inv_bind H. apply lift_opt_inv in Ha as [Hso ->].
  inv_bind H. apply lift_opt_inv in Ha as [Ht ->].
  inv_bind H. apply lift_opt_inv in Ha as [Hc ->].
  inv_bind H. apply decode_amp_inv in Ha as (-> & -> & Hva).
  inv_bind H. apply decode_amp_inv in Ha as (-> & -> & Hsa).
  cbv zeta in H.
  inv_bind H. apply lift_opt_inv in Ha as [Hvd ->].
  inv_bind H. apply lift_opt_inv in Ha as [Hsd ->].
  inv_bind H. apply lift_opt_inv in Ha as [Hvi ->].
  inv_bind H. apply lift_opt_inv in Ha as [Hsi ->].
  inversion H; subst; clear H. simpl.
  split; [reflexivity|]. split; [reflexivity|].
  destruct (split_ws (strip l)) as [|v [|so [|t rest]]]; simpl in Hv, Hso, Ht;
    try discriminate.
  injection Hv as <-. injection Hso as <-. injection Ht as <-.
  exists v, so, t, rest. repeat split; assumption.
Qed.

Lemma amp_index_lt2 a n : dget a ampIndexMap = Some n -> n < 2.
Proof.
  simpl. destruct (String.eqb a "A"); [intros [= <-]; lia|].
  destruct (String.eqb a "B"); [intros [= <-]; lia | discriminate].
Qed.

Lemma line_record_bounds l r :
  line_record l = Some r -> victimAmp r < 2 /\ sourceAmp r < 2.
Proof.
  intros H. apply (line_record_parse l r []) in H.
  apply parse_line_inv in H as (_ & _ & v & so & t & rest & _ & _ & _ & _ & _ & _ & Hvi & Hsi).
  split; eapply amp_index_lt2; eassumption.
Qed.

(** ** [apply_record] in closed form *)

Lemma update_entry_ok k (f : entry -> M entry) s e e' :
  dget k s = Some e -> f e s = (Return e', s) ->
  update_entry k f s = (Return tt, dset k e' s).
Proof.
  intros H1 H2. unfold update_entry.
  rewrite (bind_ok get _ s s s) by reflexivity.
  rewrite (bind_ok (getitem_dict s k) _ s e s)
    by (unfold getitem_dict; rewrite H1; reflexivity).
  rewrite (bind_ok (f e) _ s e' s) by exact H2.
  reflexivity.
Qed.

Lemma mat_setitem_22 m i j x :
  is_mat22 m -> i < 2 -> j < 2 ->
  mat_setitem m i j x = Some (mat_upd m i j x) /\ is_mat22 (mat_upd m i j x).
Proof.
  intros (a & b & c & d & ->) Hi Hj. unfold mat_upd.
  destruct i as [|[|i]]; [| |lia]; destruct j as [|[|j]]; try lia; cbn;
    (split; [reflexivity | repeat eexists]).
Qed.

Lemma zeros22_mat22 : is_mat22 zeros22.
Proof. repeat eexists. Qed.

Lemma wf_entry0 s vd :
  wf s ->
  is_mat22 (coeffs (entry0 s vd)) /\ dget vd (interChip (entry0 s vd)) = None /\
  (forall k' m, dget k' (interChip (entry0 s vd)) = Some m -> is_mat22 m).
Proof.
  intros Hwf. unfold entry0. destruct (dget vd s) eqn:E.
  - apply Hwf in E. exact E.
  - simpl. split; [apply zeros22_mat22|]. split; [reflexivity|]. discriminate.
Qed.

(** The victim's entry after the [if victimDet not in outDict] block. *)
Lemma created_entry s vd :
  let s1 := if dmem vd s then s else dset vd new_entry s in
  dget vd s1 = Some (entry0 s vd) /\ (forall e, dset vd e s1 = dset vd e s).
Proof.
  unfold dmem, entry0. destruct (dget vd s) eqn:E; simpl.
  - split; [exact E | reflexivity].
  - split; [apply dget_dset_eq | intros; apply dset_dset].
Qed.

Lemma apply_record_ok r s :
  wf s -> victimAmp r < 2 -> sourceAmp r < 2 ->
  apply_record r s = (Return tt, apply_pure r s).
Proof.
  intros Hwf Hi Hj.
  destruct (wf_entry0 s (victimDet r) Hwf) as (Hc & _ & Hic).
  destruct (created_entry s (victimDet r)) as [Hs1 Hset].
  set (s1 := if dmem (victimDet r) s then s else dset (victimDet r) new_entry s) in *.
  unfold apply_record, apply_pure.
  rewrite (bind_ok get _ s s s) by reflexivity.
  rewrite (bind_ok _ _ s tt s1) by (subst s1; destruct (dmem _ _); reflexivity).
  set (e0 := entry0 s (victimDet r)) in *.
  destruct (String.eqb (sourceDet r) (victimDet r)).
  - rewrite (bind_ok _ _ s1 tt _) by (apply update_entry_ok with (e := e0); [exact Hs1 | reflexivity]).
    rewrite (bind_ok _ _ _ tt _)
      by (apply update_entry_ok with (e := set_metadata (dset "DETECTOR" (victimDet r) (metadata e0)) e0);
          [apply dget_dset_eq | reflexivity]).
    rewrite (bind_ok _ _ _ tt _) by (eapply update_entry_ok; [apply dget_dset_eq | reflexivity]).
    rewrite (bind_ok _ _ _ tt _) by (eapply update_entry_ok; [apply dget_dset_eq | reflexivity]).
    erewrite update_entry_ok; [| apply dget_dset_eq |].
    + rewrite !dset_dset, Hset. reflexivity.
    + simpl. unfold setitem_mat.
      destruct (mat_setitem_22 (coeffs e0) _ _ (coeff r) Hc Hi Hj) as [-> _].
      reflexivity.
  - set (e1 := if dmem (sourceDet r) (interChip e0) then e0
               else set_interChip (dset (sourceDet r) zeros22 (interChip e0)) e0).
    rewrite (bind_ok _ _ s1 tt _)
      by (apply update_entry_ok with (e := e0) (e' := e1);
          [exact Hs1 | unfold e1; destruct (dmem (sourceDet r) (interChip e0)); reflexivity]).
    set (m0 := match dget (sourceDet r) (interChip e0) with Some m => m | None => zeros22 end).
    assert (Hm0 : is_mat22 m0).
    { subst m0. destruct (dget (sourceDet r) (interChip e0)) eqn:E;
        [eapply Hic; exact E | apply zeros22_mat22]. }
    assert (He1 : dget (sourceDet r) (interChip e1) = Some m0).
    { subst e1 m0. unfold dmem. destruct (dget (sourceDet r) (interChip e0)) eqn:E; simpl.
      - exact E.
      - apply dget_dset_eq. }
    erewrite update_entry_ok with (e := e1).
    + rewrite dset_dset, Hset. reflexivity.
    + apply dget_dset_eq.
    + unfold getitem_dict, setitem_mat.
      rewrite (bind_ok _ _ _ m0 _) by (rewrite He1; reflexivity).
      destruct (mat_setitem_22 m0 _ _ (coeff r) Hm0 Hi Hj) as [Hup _].
      rewrite (bind_ok _ _ _ _ _) by (rewrite Hup; reflexivity).
      unfold inter_update, ret. fold m0. f_equal. f_equal.
      unfold e1. destruct (dmem (sourceDet r) (interChip e0)); [reflexivity|].
      unfold set_interChip; simpl. rewrite dset_dset. reflexivity.
Qed.

(** ** The shape invariant *)

Lemma wf_nil : wf [].
Proof. intros k e H. discriminate. Qed.

Lemma wf_apply_pure r s :
  wf s -> victimAmp r < 2 -> sourceAmp r < 2 -> wf (apply_pure r s).
Proof.
  intros Hwf Hi Hj k e. unfold apply_pure.
  destruct (wf_entry0 s (victimDet r) Hwf) as (Hc & Hnone & Hic).
  set (e0 := entry0 s (victimDet r)) in *.
  destruct (String.eqb_spec (sourceDet r) (victimDet r)) as [Heq|Hne];
    rewrite dget_dset; destruct (String.eqb_spec k (victimDet r)) as [->|Hk];
    try (apply Hwf).
  - intros [= <-]. simpl. split; [apply (mat_setitem_22 _ _ _ _ Hc Hi Hj)|].
    split; assumption.
  - intros [= <-]. simpl. split; [exact Hc|]. split.
    + rewrite dget_dset_neq by (intros H; apply Hne; symmetry; exact H). exact Hnone.
    + intros k' m. rewrite dget_dset. destruct (String.eqb k' (sourceDet r)).
      * intros [= <-]. apply (mat_setitem_22 _ _ _ _); try assumption.
        destruct (dget (sourceDet r) (interChip e0)) eqn:E;
          [eapply Hic; exact E | apply zeros22_mat22].
      * apply Hic.
Qed.

Lemma process_line_cases l s :
  wf s ->
  (exists e, fst (parse_line l []) = Raise e /\ process_line l s = (Raise e, s)) \/
  (fst (parse_line l []) = Return None /\ process_line l s = (Return tt, s)) \/
  (exists r, line_record l = Some r /\ process_line l s = (Return tt, apply_pure r s)).
Proof.
  intros Hwf. unfold process_line.
  pose proof (parse_line_state l s) as Hp.
  unfold line_record.
  destruct (parse_line l []) as [[[r|]|e] s0]; simpl in Hp.
  - right; right. exists r. split; [reflexivity|].
    rewrite (bind_ok _ _ _ _ _ Hp).
    pose proof (line_record_bounds l r) as Hb.
    unfold line_record in Hb. rewrite (parse_line_state l []) in Hb.
    destruct (parse_line l []) as [o s2]. simpl in Hb, Hp.
    apply apply_record_ok; [exact Hwf | |].
    all: destruct (line_record_bounds l r) as [? ?]; try assumption.
    all: unfold line_record; rewrite (parse_line_state l []); simpl.
    all: pose proof (parse_line_state l s) as Hq; rewrite Hp in Hq.
    all: inversion Hq; reflexivity.
  - right; left. split; [reflexivity|]. rewrite (bind_ok _ _ _ _ _ Hp). reflexivity.
  - left. exists e. split; [reflexivity|]. rewrite (bind_raise _ _ _ _ _ Hp). reflexivity.
Qed.

Lemma process_line_wf l s s' :
  wf s -> process_line l s = (Return tt, s') -> wf s'.
Proof.
  intros Hwf H.
  destruct (process_line_cases l s Hwf) as [(e & _ & He) | [(_ & Hn) | (r & Hr & Hs)]].
  - congruence.
  - rewrite Hn in H. inversion H. subst. exact Hwf.
  - rewrite Hs in H. inversion H. subst.
    destruct (line_record_bounds l r Hr). apply wf_apply_pure; assumption.
Qed.

Lemma process_line_raise l s e s' :
  wf s -> process_line l s = (Raise e, s') -> s' = s.
Proof.
  intros Hwf H.
  destruct (process_line_cases l s Hwf) as [(e' & _ & He) | [(_ & Hn) | (r & _ & Hs)]];
    congruence.
Qed.

Lemma run_lines_wf ls s s' :
  wf s -> run_lines ls s = (Return tt, s') -> wf s'.
Proof.
  revert s. induction ls as [|l ls IH]; intros s Hwf H; simpl in H.
  - inversion H. subst. exact Hwf.
  - apply bind_inv in H as ([] & s1 & H1 & H2).
    apply (IH s1); [eapply process_line_wf; eassumption | exact H2].
Qed.

Lemma run_lines_app ls1 ls2 s :
  run_lines (ls1 ++ ls2) s = bind (run_lines ls1) (fun _ => run_lines ls2) s.
Proof.
  revert s. induction ls1 as [|l ls1 IH]; intros s; simpl.
  - reflexivity.
  - unfold bind. destruct (process_line l s) as [[[]|e] s1].
    + rewrite IH. reflexivity.
    + reflexivity.
Qed.

Lemma run_lines_raise ls s e s' :
  wf s -> run_lines ls s = (Raise e, s') ->
  exists pre l post, ls = pre ++ l :: post /\
    run_lines pre s = (Return tt, s') /\ process_line l s' = (Raise e, s').
Proof.
  revert s. induction ls as [|l ls IH]; intros s Hwf H; simpl in H.
  - discriminate.
  - unfold bind in H. destruct (process_line l s) as [[[]|e0] s1] eqn:Hl.
    + destruct (IH s1 (process_line_wf l s s1 Hwf Hl) H) as (pre & l' & post & -> & Hpre & Hl').
      exists (l :: pre), l', post. split; [reflexivity|]. split; [|exact Hl'].
      simpl. rewrite (bind_ok _ _ _ _ _ Hl). exact Hpre.
    + inversion H. subst.
      pose proof (process_line_raise l s e s' Hwf Hl). subst.
      exists [], l, ls. auto.
Qed.

Lemma reachable_wf pre s : run_lines pre [] = (Return tt, s) -> wf s.
Proof. apply run_lines_wf, wf_nil. Qed.

Lemma process_line_record pre s l r :
  run_lines pre [] = (Return tt, s) -> line_record l = Some r ->
  process_line l s = (Return tt, apply_pure r s).
Proof.
  intros Hpre Hr. pose proof (reachable_wf pre s Hpre) as Hwf.
  destruct (process_line_cases l s Hwf) as [(e & He & _) | [(Hn & _) | (r' & Hr' & Hs)]].
  - unfold line_record in Hr. destruct (parse_line l []) as [o s0]. simpl in He. subst. discriminate.
  - unfold line_record in Hr. destruct (parse_line l []) as [o s0]. simpl in Hn. subst. discriminate.
  - rewrite Hr in Hr'. injection Hr' as <-. exact Hs.
Qed.

(** ** Claims *)

(** C1. A decoded record whose victim and source detectors are equal writes
    its coefficient at [[victimAmp][sourceAmp]] of the victim's [coeffs]
    and leaves its [interChip] as it was; one whose detectors differ writes
    it at [[victimAmp][sourceAmp]] of [interChip[sourceDet]] (a zero matrix
    created on first reference) and leaves [coeffs] as it was.  The victim's
    entry is the existing one or, on first reference, [new_entry]; no other
    victim's entry changes.  Stated for a line at any point of a file. *)
Theorem record_self_or_interchip pre s l r :
  run_lines pre [] = (Return tt, s) ->
  line_record l = Some r ->
  exists s', process_line l s = (Return tt, s') /\
    (forall k, k <> victimDet r -> dget k s' = dget k s) /\
    exists e', dget (victimDet r) s' = Some e' /\
    let e0 := entry0 s (victimDet r) in
    (sourceDet r = victimDet r ->
       mat_setitem (coeffs e0) (victimAmp r) (sourceAmp r) (coeff r) = Some (coeffs e') /\
       interChip e' = interChip e0) /\
    (sourceDet r <> victimDet r ->
       coeffs e' = coeffs e0 /\
       exists m', mat_setitem (match dget (sourceDet r) (interChip e0) with
                               | Some m => m | None => zeros22 end)
                              (victimAmp r) (sourceAmp r) (coeff r) = Some m' /\
                  interChip e' = dset (sourceDet r) m' (interChip e0)).
Proof.
  intros Hpre Hr. pose proof (reachable_wf pre s Hpre) as Hwf.
  destruct (line_record_bounds l r Hr) as [Hi Hj].
  destruct (wf_entry0 s (victimDet r) Hwf) as (Hc & _ & Hic).
  exists (apply_pure r s). split; [eapply process_line_record; eassumption|].
  split.
  { intros k Hk. unfold apply_pure. destruct (String.eqb _ _); apply dget_dset_neq; exact Hk. }
  unfold apply_pure.
  destruct (String.eqb_spec (sourceDet r) (victimDet r)) as [Heq|Hne].
  - eexists. split; [apply dget_dset_eq|]. simpl. split; [|intros H; contradiction].
    intros _. split; [|reflexivity].
    apply (mat_setitem_22 _ _ _ _ Hc Hi Hj).
  - eexists. split; [apply dget_dset_eq|]. simpl. split; [intros H; contradiction|].
    intros _. split; [reflexivity|]. eexists. split; [|reflexivity].
    apply mat_setitem_22; [|assumption|assumption].
    destruct (dget (sourceDet r) (interChip (entry0 s (victimDet r)))) eqn:E;
      [eapply Hic; exact E | apply zeros22_mat22].
Qed.

(** C10. When [readFile] raises, the dictionary at that moment is exactly
    the one the earlier lines built: the file splits as
    [pre ++ l :: post], [pre] runs to completion into that dictionary, the
    exception comes from the decoding part of line [l] ([parse_line]: token
    extraction, [float], amp labels, [detMap]) and processing [l] leaves
    the dictionary unchanged. *)
Theorem readFile_raise_atomic lines e :
  readFile lines = Raise e ->
  exists pre l post,
    lines = pre ++ l :: post /\
    run_lines pre [] = (Return tt, readFile_state lines) /\
    fst (parse_line l []) = Raise e /\
    process_line l (readFile_state lines) = (Raise e, readFile_state lines).
Proof.
  unfold readFile, readFile_state. intros H.
  destruct (run_lines lines []) as [[u|e0] s'] eqn:Hrun; [discriminate|].
  injection H as ->. simpl.
  destruct (run_lines_raise lines [] e s' wf_nil Hrun) as (pre & l & post & Hls & Hpre & Hl).
  exists pre, l, post. split; [exact Hls|]. split; [exact Hpre|]. split; [|exact Hl].
  destruct (process_line_cases l s' (reachable_wf pre s' Hpre))
    as [(e' & He' & Hs) | [(_ & Hn) | (r & _ & Hs)]]; congruence.
Qed.

Lemma readFile_return lines out :
  readFile lines = Return out -> run_lines lines [] = (Return tt, out) /\ wf out.
Proof.
  unfold readFile. destruct (run_lines lines []) as [[[]|e] s'] eqn:H; [|discriminate].
  intros [= <-]. split; [reflexivity|]. eapply run_lines_wf; [apply wf_nil | exact H].
Qed.

(** The steps of [parse_line] on a line with three tokens, a numeric third
    token and two accepted amp labels, up to the [detMap] lookups. *)
Lemma parse_line_after_amps l s v so t rest c :
  startswith_hash (strip l) = false ->
  split_ws (strip l) = v :: so :: t :: rest ->
  py_float t = Some c ->
  (str_contains "A" v || str_contains "B" v) = true ->
  (str_contains "A" so || str_contains "B" so) = true ->
  parse_line l s =
    (vDet <- getitem_dict detMap (str_replace_empty (amp_of v) v) ;;
     sDet <- getitem_dict detMap (str_replace_empty (amp_of so) so) ;;
     vi <- getitem_dict ampIndexMap (amp_of v) ;;
     si <- getitem_dict ampIndexMap (amp_of so) ;;
     ret (Some (mkRecord vDet sDet vi si c))) s.
Proof.
  intros Hh Hs Hc Hv Hso. unfold parse_line. cbv zeta. rewrite Hh, Hs.
  rewrite (bind_ok _ _ s v s) by reflexivity.
  rewrite (bind_ok _ _ s so s) by reflexivity.
  rewrite (bind_ok _ _ s t s) by reflexivity.
  rewrite (bind_ok _ _ s c s) by (unfold float_m; rewrite Hc; reflexivity).
  rewrite (bind_ok _ _ s (amp_of v) s) by (apply decode_amp_ok; exact Hv).
  rewrite (bind_ok _ _ s (amp_of so) s) by (apply decode_amp_ok; exact Hso).
  reflexivity.
Qed.

(** C2. The three-line example of the spec: victim [S29] has
    [coeffs = [[0, 0.0012], [0.0009, 0]]],
    [interChip["S30"] = [[0, 0.0003], [0, 0]]], [hasCrosstalk = True] and
    metadata [DETECTOR = "S29"]. *)
Theorem readFile_three_line_example c1 c2 c3 :
  py_float "0.0012" = Some c1 ->
  py_float "0.0009" = Some c2 ->
  py_float "0.0003" = Some c3 ->
  exists out e,
    readFile [("ccd01A ccd01B 0.0012" ++ nl)%string;
              ("ccd01B ccd01A 0.0009" ++ nl)%string;
              ("ccd01A ccd02B 0.0003" ++ nl)%string] = Return out /\
    dget "S29" out = Some e /\
    coeffs e = [[zero; c1]; [c2; zero]] /\
    dget "S30" (interChip e) = Some [[zero; c3]; [zero; zero]] /\
    hasCrosstalk e = true /\
    dget "DETECTOR" (metadata e) = Some "S29".
Proof.
  intros H1 H2 H3. unfold readFile.
  cbv. rewrite H1.
  cbv. rewrite H2.
  cbv. rewrite H3.
  cbv.
  do 2 eexists. split; [reflexivity|]. repeat split.
Qed.

(** C3. [makeDetectorCrosstalk] hands [fromDict] the exact transpose of
    the [coeffs] that [readFile] accumulated: cell [[i][j]] of the handed
    matrix is cell [[j][i]] of the accumulated one, and the two matrices
    differ whenever the accumulated one is not symmetric. *)
Theorem makeDetectorCrosstalk_transposes lines out vd e :
  readFile lines = Return out ->
  dget vd out = Some e ->
  (forall i j, i < 2 -> j < 2 ->
     mat_get (coeffs (makeDetectorCrosstalk e)) i j = mat_get (coeffs e) j i) /\
  (mat_get (coeffs e) 0 1 <> mat_get (coeffs e) 1 0 ->
     coeffs (makeDetectorCrosstalk e) <> coeffs e).
Proof.
  intros Hr He. destruct (readFile_return lines out Hr) as [_ Hwf].
  destruct (Hwf vd e He) as ((a & b & c & d & Hc) & _ & _).
  unfold makeDetectorCrosstalk. simpl. rewrite Hc. split.
  - intros i j Hi Hj.
    destruct i as [|[|i]]; [| |lia]; destruct j as [|[|j]]; try lia; reflexivity.
  - cbn. intros Hne Heq. inversion Heq. subst. congruence.
Qed.

Lemma readFile_line_raises pre s l post e :
  run_lines pre [] = (Return tt, s) ->
  process_line l s = (Raise e, s) ->
  readFile (pre ++ l :: post) = Raise e /\ readFile_state (pre ++ l :: post) = s.
Proof.
  intros Hpre Hl. unfold readFile, readFile_state.
  rewrite run_lines_app, (bind_ok _ _ _ _ _ Hpre). simpl.
  rewrite (bind_raise _ _ _ _ _ Hl). split; reflexivity.
Qed.

(** C5, as the code has it.  A blank line (empty or whitespace only) is not
    skipped: [li.split()] is empty, [elem[0]] raises [IndexError], and the
    whole [readFile] raises when it reaches that line. *)
Theorem blank_line_raises pre s l post :
  run_lines pre [] = (Return tt, s) ->
  strip l = EmptyString ->
  readFile (pre ++ l :: post) = Raise IndexError.
Proof.
  intros Hpre Hl. apply (readFile_line_raises pre s l post IndexError Hpre).
  unfold process_line. apply bind_raise.
  unfold parse_line. cbv zeta. rewrite Hl. reflexivity.
Qed.

(** C6, as the code has it.  On a line with three tokens and a numeric
    third token: a victim token containing neither ['A'] nor ['B'] raises
    [RuntimeError("Unknown amp: ...")] (UnknownAmpLabel), as does a source
    token containing neither; for a decoded line the amp index is [0]
    (['A']) whenever the token contains ['A'] anywhere, and [1] (['B'])
    otherwise: ['A'] takes precedence over ['B'] whatever their positions.
    The same holds for every token with an amp letter, decoded or not: the
    line then goes on with amp ['A'] if the token contains ['A'] and ['B']
    otherwise, and looks up in [detMap] the token with that character
    removed (for ["ccdB01A"], the label ["ccdB01"]).  The match is exact
    (case-sensitive). *)
Theorem amp_label_decoding l v so t rest c :
  startswith_hash (strip l) = false ->
  split_ws (strip l) = v :: so :: t :: rest ->
  py_float t = Some c ->
  (forall s, str_contains "A" v = false -> str_contains "B" v = false ->
     process_line l s = (Raise (RuntimeError ("Unknown amp: " ++ v)%string), s)) /\
  (forall s, (str_contains "A" v || str_contains "B" v) = true ->
     str_contains "A" so = false -> str_contains "B" so = false ->
     process_line l s = (Raise (RuntimeError ("Unknown amp: " ++ so)%string), s)) /\
  (forall r, line_record l = Some r ->
     victimAmp r = (if str_contains "A" v then 0 else 1) /\
     sourceAmp r = (if str_contains "A" so then 0 else 1)) /\
  (forall s, (str_contains "A" v || str_contains "B" v) = true ->
     (str_contains "A" so || str_contains "B" so) = true ->
     parse_line l s =
       (vDet <- getitem_dict detMap
                  (str_replace_empty (if str_contains "A" v then "A" else "B") v) ;;
        sDet <- getitem_dict detMap
                  (str_replace_empty (if str_contains "A" so then "A" else "B") so) ;;
        ret (Some (mkRecord vDet sDet (if str_contains "A" v then 0 else 1)
                                      (if str_contains "A" so then 0 else 1) c))) s).
Proof.
  intros Hh Hs Hc. split; [|split; [|split]].
  - intros s HA HB. unfold process_line. apply bind_raise.
    unfold parse_line. cbv zeta. rewrite Hh, Hs.
    rewrite (bind_ok _ _ s v s) by reflexivity.
    rewrite (bind_ok _ _ s so s) by reflexivity.
    rewrite (bind_ok _ _ s t s) by reflexivity.
    rewrite (bind_ok _ _ s c s) by (unfold float_m; rewrite Hc; reflexivity).
    apply bind_raise. unfold decode_amp. rewrite HA, HB. reflexivity.
  - intros s Hv HA HB. unfold process_line. apply bind_raise.
    unfold parse_line. cbv zeta. rewrite Hh, Hs.
    rewrite (bind_ok _ _ s v s) by reflexivity.
    rewrite (bind_ok _ _ s so s) by reflexivity.
    rewrite (bind_ok _ _ s t s) by reflexivity.
    rewrite (bind_ok _ _ s c s) by (unfold float_m; rewrite Hc; reflexivity).
    rewrite (bind_ok _ _ s (amp_of v) s) by (apply decode_amp_ok; exact Hv).
    apply bind_raise. unfold decode_amp. rewrite HA, HB. reflexivity.
  - intros r Hr. apply (line_record_parse l r []) in Hr.
    apply parse_line_inv in Hr
      as (_ & _ & v' & so' & t' & rest' & Hs' & _ & _ & _ & _ & _ & Hvi & Hsi).
    rewrite Hs in Hs'. injection Hs' as <- <- _ _.
    unfold amp_of in Hvi, Hsi.
    destruct (str_contains "A" v); simpl in Hvi; injection Hvi as <-;
      (destruct (str_contains "A" so); simpl in Hsi; injection Hsi as <-; split; reflexivity).
  - intros s Hv Hso. rewrite (parse_line_after_amps l s v so t rest c Hh Hs Hc Hv Hso).
    unfold amp_of, bind, getitem_dict, lift_opt.
    destruct (str_contains "A" v), (str_contains "A" so);
      (destruct (dget _ detMap); [destruct (dget _ detMap)|]); reflexivity.
Qed.

(** C7.  On a line reached by [readFile] (the lines before it were
    processed) whose tokens pass the float and amp checks, a detector label
    (the token with its amp character removed) that is not a key of
    [detMap] makes [readFile] raise [KeyError] (UnknownDetector) on that
    label, leaving the dictionary as the earlier lines built it; for a
    one-line file this is the empty dictionary. *)
Theorem unknown_detector_raises pre s l post v so t rest c :
  run_lines pre [] = (Return tt, s) ->
  startswith_hash (strip l) = false ->
  split_ws (strip l) = v :: so :: t :: rest ->
  py_float t = Some c ->
  (str_contains "A" v || str_contains "B" v) = true ->
  (str_contains "A" so || str_contains "B" so) = true ->
  dget (str_replace_empty (amp_of v) v) detMap = None \/
  dget (str_replace_empty (amp_of so) so) detMap = None ->
  exists k, dget k detMap = None /\
    readFile (pre ++ l :: post) = Raise (KeyError k) /\
    readFile_state (pre ++ l :: post) = s.
Proof.
  intros Hpre Hh Hs Hc Hv Hso Hd.
  assert (Hl : exists k, dget k detMap = None /\ process_line l s = (Raise (KeyError k), s)).
  { destruct (dget (str_replace_empty (amp_of v) v) detMap) as [vd|] eqn:Ev.
    - destruct Hd as [Hd|Hd]; [discriminate|].
      exists (str_replace_empty (amp_of so) so). split; [exact Hd|].
      unfold process_line. apply bind_raise.
      rewrite (parse_line_after_amps l s v so t rest c Hh Hs Hc Hv Hso).
      rewrite (bind_ok _ _ s vd s) by (unfold getitem_dict; rewrite Ev; reflexivity).
      apply bind_raise. unfold getitem_dict. rewrite Hd. reflexivity.
    - exists (str_replace_empty (amp_of v) v). split; [exact Ev|].
      unfold process_line. apply bind_raise.
      rewrite (parse_line_after_amps l s v so t rest c Hh Hs Hc Hv Hso).
      apply bind_raise. unfold getitem_dict. rewrite Ev. reflexivity. }
  destruct Hl as (k & Hk & Hl). exists k. split; [exact Hk|].
  apply readFile_line_raises; assumption.
Qed.

(** ** Cell values *)

Lemma mat22_get m i j : is_mat22 m -> i < 2 -> j < 2 -> exists x, mat_get m i j = Some x.
Proof.
  intros (a & b & c & d & ->) Hi Hj.
  destruct i as [|[|i]]; [| |lia]; destruct j as [|[|j]]; try lia; eexists; reflexivity.
Qed.

Lemma mat_upd_get m i0 j0 x i j :
  is_mat22 m -> i0 < 2 -> j0 < 2 -> i < 2 -> j < 2 ->
  mat_get (mat_upd m i0 j0 x) i j =
  if Nat.eqb i0 i && Nat.eqb j0 j then Some x else mat_get m i j.
Proof.
  intros (a & b & c & d & ->) Hi0 Hj0 Hi Hj.
  destruct i0 as [|[|i0]]; [| |lia]; destruct j0 as [|[|j0]]; try lia;
  destruct i as [|[|i]]; try lia; destruct j as [|[|j]]; try lia; reflexivity.
Qed.

Lemma zeros22_get i j : i < 2 -> j < 2 -> mat_get zeros22 i j = Some zero.
Proof.
  intros Hi Hj. destruct i as [|[|i]]; try lia; destruct j as [|[|j]]; try lia; reflexivity.
Qed.

Lemma cellz_entry0 s vd sd i j :
  i < 2 -> j < 2 -> cellz s vd sd i j = cellz_entry (entry0 s vd) vd sd i j.
Proof.
  intros Hi Hj. unfold cellz, cell, cellz_entry, entry0.
  destruct (dget vd s) as [e|].
  - destruct (String.eqb sd vd); [reflexivity|]. destruct (dget sd (interChip e)); reflexivity.
  - simpl. destruct (String.eqb sd vd); [|reflexivity].
    rewrite zeros22_get by assumption. reflexivity.
Qed.

Lemma apply_pure_cellz r s vd sd i j :
  wf s -> victimAmp r < 2 -> sourceAmp r < 2 -> i < 2 -> j < 2 ->
  cellz (apply_pure r s) vd sd i j =
  if targets vd sd i j r then coeff r else cellz s vd sd i j.
Proof.
  intros Hwf Hi0 Hj0 Hi Hj.
  destruct (wf_entry0 s (victimDet r) Hwf) as (Hc & Hnone & Hic).
  rewrite !(cellz_entry0 _ vd sd i j Hi Hj).
  unfold targets.
  destruct (String.eqb_spec (victimDet r) vd) as [<-|Hne]; simpl.
  2:{ unfold entry0, apply_pure.
      destruct (String.eqb _ _); rewrite dget_dset_neq by congruence; reflexivity. }
  unfold entry0 at 1, apply_pure.
  set (e0 := entry0 s (victimDet r)) in *.
  destruct (String.eqb_spec (sourceDet r) (victimDet r)) as [Hsv|Hsv];
    rewrite dget_dset_eq; unfold cellz_entry.
  - unfold self_update. simpl.
    destruct (String.eqb_spec sd (victimDet r)) as [->|Hsd].
    + rewrite Hsv, String.eqb_refl. simpl.
      rewrite mat_upd_get by assumption.
      destruct (Nat.eqb (victimAmp r) i && Nat.eqb (sourceAmp r) j); reflexivity.
    + assert (Hf : String.eqb (sourceDet r) sd = false)
        by (apply String.eqb_neq; congruence).
      rewrite Hf. reflexivity.
  - unfold inter_update. simpl.
    destruct (String.eqb_spec sd (victimDet r)) as [->|Hsd].
    + assert (Hf : String.eqb (sourceDet r) (victimDet r) = false)
        by (apply String.eqb_neq; exact Hsv).
      rewrite Hf. reflexivity.
    + rewrite dget_dset.
      destruct (String.eqb_spec sd (sourceDet r)) as [->|Hss].
      * rewrite String.eqb_refl. simpl.
        destruct (dget (sourceDet r) (interChip e0)) as [m|] eqn:Em.
        -- rewrite mat_upd_get by (try (eapply Hic; exact Em); assumption).
           destruct (Nat.eqb (victimAmp r) i && Nat.eqb (sourceAmp r) j); reflexivity.
        -- rewrite mat_upd_get by (try apply zeros22_mat22; assumption).
           rewrite zeros22_get by assumption.
           destruct (Nat.eqb (victimAmp r) i && Nat.eqb (sourceAmp r) j); reflexivity.
      * assert (Hf : String.eqb (sourceDet r) sd = false)
          by (apply String.eqb_neq; congruence).
        rewrite Hf. simpl. reflexivity.
Qed.

Lemma line_record_none_of_comment l :
  fst (parse_line l []) = Return None -> line_record l = None.
Proof. unfold line_record. destruct (parse_line l []) as [o s0]. simpl. intros ->. reflexivity. Qed.

(** After a run, a cell holds the coefficient of the last line that wrote
    it, or what it held before when no line did. *)
Lemma run_lines_cellz ls s s' vd sd i j :
  wf s -> run_lines ls s = (Return tt, s') -> i < 2 -> j < 2 ->
  cellz s' vd sd i j =
  match last_coeff ls vd sd i j with Some c => c | None => cellz s vd sd i j end.
Proof.
  intros Hwf H Hi Hj. revert s Hwf H.
  induction ls as [|l ls IH]; intros s Hwf H; simpl in H.
  - inversion H. reflexivity.
  - apply bind_inv in H as ([] & s1 & H1 & H2).
    rewrite (IH s1 (process_line_wf l s s1 Hwf H1) H2). simpl.
    destruct (last_coeff ls vd sd i j) as [c|]; [reflexivity|].
    destruct (process_line_cases l s Hwf) as [(e & _ & He) | [(Hn & Hs) | (r & Hr & Hs)]].
    + congruence.
    + rewrite Hs in H1. injection H1 as <-.
      rewrite (line_record_none_of_comment l Hn). reflexivity.
    + rewrite Hs in H1. injection H1 as <-. rewrite Hr.
      destruct (line_record_bounds l r Hr).
      rewrite apply_pure_cellz by assumption.
      destruct (targets vd sd i j r); reflexivity.
Qed.

Lemma has_cell_apply_pure r s vd sd :
  has_cell s vd sd = true -> has_cell (apply_pure r s) vd sd = true.
Proof.
  unfold has_cell, apply_pure. cbv zeta. destruct (dget vd s) as [e|] eqn:E; [|discriminate].
  intros H. destruct (String.eqb_spec (victimDet r) vd) as [<-|Hne].
  - unfold entry0 in *. rewrite E.
    destruct (String.eqb (sourceDet r) (victimDet r)); rewrite dget_dset_eq; [exact H|].
    unfold inter_update; simpl. unfold dmem in *. rewrite dget_dset.
    destruct (String.eqb sd (sourceDet r)); [apply orb_true_r | exact H].
  - destruct (String.eqb (sourceDet r) (victimDet r));
      rewrite dget_dset_neq by congruence; rewrite E; exact H.
Qed.

Lemma has_cell_target r s :
  has_cell (apply_pure r s) (victimDet r) (sourceDet r) = true.
Proof.
  unfold has_cell, apply_pure. cbv zeta.
  destruct (String.eqb (sourceDet r) (victimDet r)) eqn:E; rewrite dget_dset_eq;
    [reflexivity|].
  unfold inter_update; simpl. unfold dmem. rewrite dget_dset_eq. reflexivity.
Qed.

Lemma run_lines_has_cell ls s s' vd sd :
  wf s -> run_lines ls s = (Return tt, s') -> has_cell s vd sd = true -> has_cell s' vd sd = true.
Proof.
  revert s. induction ls as [|l ls IH]; intros s Hwf H Hc; simpl in H.
  - inversion H. subst. exact Hc.
  - apply bind_inv in H as ([] & s1 & H1 & H2).
    apply (IH s1 (process_line_wf l s s1 Hwf H1) H2).
    destruct (process_line_cases l s Hwf) as [(e & _ & He) | [(_ & Hs) | (r & _ & Hs)]].
    + congruence.
    + rewrite Hs in H1. injection H1 as <-. exact Hc.
    + rewrite Hs in H1. injection H1 as <-. apply has_cell_apply_pure. exact Hc.
Qed.

Lemma has_cell_value s vd sd i j :
  wf s -> i < 2 -> j < 2 -> has_cell s vd sd = true -> cell s vd sd i j = Some (cellz s vd sd i j).
Proof.
  intros Hwf Hi Hj. unfold has_cell, cellz, cell.
  destruct (dget vd s) as [e|] eqn:E; [|discriminate].
  destruct (Hwf vd e E) as (Hc & _ & Hic).
  destruct (String.eqb sd vd).
  - intros _. destruct (mat22_get _ i j Hc Hi Hj) as [x ->]. reflexivity.
  - simpl. unfold dmem. destruct (dget sd (interChip e)) as [m|] eqn:Em; [|discriminate].
    intros _. destruct (mat22_get m i j (Hic _ _ Em) Hi Hj) as [x ->]. reflexivity.
Qed.

Lemma run_lines_total ls s :
  wf s -> (forall l, In l ls -> exists o, fst (parse_line l []) = Return o) ->
  exists s', run_lines ls s = (Return tt, s').
Proof.
  revert s. induction ls as [|l ls IH]; intros s Hwf Hall; simpl.
  - eexists. reflexivity.
  - destruct (Hall l (or_introl eq_refl)) as [o Ho].
    assert (Hl : exists s1, process_line l s = (Return tt, s1)).
    { destruct (process_line_cases l s Hwf) as [(e & He & _) | [(_ & Hs) | (r & _ & Hs)]];
        [congruence | eexists; exact Hs | eexists; exact Hs]. }
    destruct Hl as [s1 Hl]. rewrite (bind_ok _ _ _ _ _ Hl).
    apply IH; [eapply process_line_wf; eassumption|].
    intros l' Hin. apply Hall. right. exact Hin.
Qed.

Lemma last_coeff_none ls vd sd i j :
  (forall l, In l ls -> line_targets vd sd i j l = false) -> last_coeff ls vd sd i j = None.
Proof.
  induction ls as [|l ls IH]; intros H; simpl; [reflexivity|].
  rewrite IH by (intros l' Hin; apply H; right; exact Hin).
  specialize (H l (or_introl eq_refl)). unfold line_targets in H.
  destruct (line_record l) as [r|]; [rewrite H|]; reflexivity.
Qed.

Lemma last_coeff_app ls1 ls2 vd sd i j :
  last_coeff (ls1 ++ ls2) vd sd i j =
  match last_coeff ls2 vd sd i j with
  | Some c => Some c
  | None => last_coeff ls1 vd sd i j
  end.
Proof.
  induction ls1 as [|l ls1 IH]; simpl.
  - destruct (last_coeff ls2 vd sd i j); reflexivity.
  - rewrite IH. destruct (last_coeff ls2 vd sd i j); reflexivity.
Qed.

(** C8.  When two decoded lines write the same cell
    [(victim, source, victimAmp, sourceAmp)] and no line after the second
    writes it again, the cell holds the second line's coefficient: the
    earlier value is overwritten.  Duplicates raise nothing: a file whose
    every line decodes is read to the end. *)
Theorem last_write_wins pre l1 mid l2 post r1 r2 :
  line_record l1 = Some r1 ->
  line_record l2 = Some r2 ->
  victimDet r1 = victimDet r2 -> sourceDet r1 = sourceDet r2 ->
  victimAmp r1 = victimAmp r2 -> sourceAmp r1 = sourceAmp r2 ->
  (forall l, In l post ->
     line_targets (victimDet r2) (sourceDet r2) (victimAmp r2) (sourceAmp r2) l = false) ->
  (forall l, In l (pre ++ l1 :: mid ++ l2 :: post) ->
     exists o, fst (parse_line l []) = Return o) ->
  exists out,
    readFile (pre ++ l1 :: mid ++ l2 :: post) = Return out /\
    cell out (victimDet r2) (sourceDet r2) (victimAmp r2) (sourceAmp r2) = Some (coeff r2).
Proof.
  intros Hr1 Hr2 _ _ _ _ Hpost Hall.
  set (A := pre ++ l1 :: mid).
  assert (Hsplit : pre ++ l1 :: mid ++ l2 :: post = A ++ l2 :: post)
    by (subst A; rewrite <- app_assoc; reflexivity).
  rewrite Hsplit in *.
  destruct (run_lines_total _ [] wf_nil Hall) as [s' Hrun].
  exists s'. unfold readFile. rewrite Hrun. split; [reflexivity|].
  destruct (line_record_bounds l2 r2 Hr2) as [Hi Hj].
  assert (Hwf : wf s') by (eapply run_lines_wf; [apply wf_nil | exact Hrun]).
  pose proof Hrun as Hrun'.
  rewrite run_lines_app in Hrun'. apply bind_inv in Hrun' as ([] & sA & HA & Hrest).
  simpl in Hrest. apply bind_inv in Hrest as ([] & s2 & H2 & Hpost').
  rewrite (process_line_record A sA l2 r2 HA Hr2) in H2. injection H2 as <-.
  assert (HwA : wf sA) by (eapply reachable_wf; exact HA).
  rewrite (has_cell_value s' _ _ _ _ Hwf Hi Hj).
  2:{ eapply run_lines_has_cell; [| exact Hpost' | apply has_cell_target].
      destruct (line_record_bounds l2 r2 Hr2). apply wf_apply_pure; assumption. }
  f_equal. rewrite (run_lines_cellz _ [] s' _ _ _ _ wf_nil Hrun Hi Hj).
  rewrite last_coeff_app. simpl.
  rewrite (last_coeff_none post _ _ _ _ Hpost), Hr2. unfold targets.
  rewrite !String.eqb_refl, !Nat.eqb_refl. reflexivity.
Qed.

(** C9.  In [readFile]'s result, a cell of a victim's [coeffs] or of one of
    its [interChip] matrices that no line of the file writes is exactly
    [0.0]. *)
Theorem unwritten_cells_zero lines out vd e i j :
  readFile lines = Return out ->
  dget vd out = Some e ->
  i < 2 -> j < 2 ->
  ((forall l, In l lines -> line_targets vd vd i j l = false) ->
     mat_get (coeffs e) i j = Some zero) /\
  (forall sd m, dget sd (interChip e) = Some m ->
     (forall l, In l lines -> line_targets vd sd i j l = false) ->
     mat_get m i j = Some zero).
Proof.
  intros Hr He Hi Hj. destruct (readFile_return lines out Hr) as [Hrun Hwf].
  assert (Hz : forall sd, (forall l, In l lines -> line_targets vd sd i j l = false) ->
                 has_cell out vd sd = true -> cell out vd sd i j = Some zero).
  { intros sd Hno Hc. rewrite (has_cell_value out vd sd i j Hwf Hi Hj Hc). f_equal.
    rewrite (run_lines_cellz lines [] out vd sd i j wf_nil Hrun Hi Hj).
    rewrite (last_coeff_none lines vd sd i j Hno). reflexivity. }
  split.
  - intros Hno. specialize (Hz vd Hno).
    unfold has_cell, cell in Hz. rewrite He, String.eqb_refl in Hz.
    apply Hz. reflexivity.
  - intros sd m Hm Hno. specialize (Hz sd Hno).
    destruct (Hwf vd e He) as (_ & Hnone & _).
    assert (Hne : String.eqb sd vd = false)
      by (apply String.eqb_neq; intros ->; congruence).
    unfold has_cell, cell, dmem in Hz. rewrite He, Hne, Hm in Hz.
    apply Hz. reflexivity.
Qed.

(** ** The metadata fields *)

Lemma det_set_unset d e : det_set d e -> det_unset e -> False.
Proof. intros (H1 & _) (H2 & _). congruence. Qed.

Lemma meta_inv_nil : meta_inv [].
Proof. intros d e H. discriminate. Qed.

Lemma entry0_meta s d :
  meta_inv s ->
  hasCrosstalk (entry0 s d) = true /\
  dget "OBSTYPE" (metadata (entry0 s d)) = Some "CROSSTALK" /\
  ((det_set d (entry0 s d) /\ set_in s d) \/ (det_unset (entry0 s d) /\ ~ set_in s d)).
Proof.
  intros Hinv. unfold entry0, set_in. destruct (dget d s) as [e|] eqn:E.
  - destruct (Hinv d e E) as (H1 & H2 & [Hs|Hu]).
    + split; [exact H1|]. split; [exact H2|]. left. split; [exact Hs|]. exists e. auto.
    + split; [exact H1|]. split; [exact H2|]. right. split; [exact Hu|].
      intros (e' & E' & Hs). injection E' as <-.
      exact (det_set_unset d e Hs Hu).
  - split; [reflexivity|]. split; [reflexivity|]. right.
    split; [repeat split | intros (e' & E' & _); discriminate].
Qed.

Lemma self_update_fields vd i j x e0 :
  hasCrosstalk (self_update vd i j x e0) = hasCrosstalk e0 /\
  dget "OBSTYPE" (metadata (self_update vd i j x e0)) = dget "OBSTYPE" (metadata e0) /\
  det_set vd (self_update vd i j x e0).
Proof.
  unfold self_update, det_set. simpl. rewrite !dget_dset. simpl.
  repeat split.
Qed.

Lemma apply_pure_meta r s :
  meta_inv s ->
  meta_inv (apply_pure r s) /\
  (forall d, set_in (apply_pure r s) d <->
             set_in s d \/ (String.eqb (victimDet r) d && String.eqb (sourceDet r) d) = true).
Proof.
  intros Hinv.
  destruct (entry0_meta s (victimDet r) Hinv) as (H1 & H2 & H3).
  set (e0 := entry0 s (victimDet r)) in *.
  unfold apply_pure. cbv zeta. fold e0.
  destruct (String.eqb_spec (sourceDet r) (victimDet r)) as [Hsv|Hsv].
  - destruct (self_update_fields (victimDet r) (victimAmp r) (sourceAmp r) (coeff r) e0)
      as (F1 & F2 & F3).
    split.
    + intros d e. rewrite dget_dset.
      destruct (String.eqb_spec d (victimDet r)) as [->|Hne]; [|apply Hinv].
      intros [= <-]. rewrite F1, F2. auto.
    + intros d. unfold set_in. rewrite dget_dset. rewrite Hsv.
      destruct (String.eqb_spec d (victimDet r)) as [->|Hne].
      * rewrite String.eqb_refl. simpl. split; [intros _; right; reflexivity|].
        intros _. eexists. split; [reflexivity | exact F3].
      * assert (Hf : String.eqb (victimDet r) d = false) by (apply String.eqb_neq; congruence).
        rewrite Hf. simpl. split; [intros H; left; exact H | intros [H|H]; [exact H | discriminate]].
  - split.
    + intros d e. rewrite dget_dset.
      destruct (String.eqb_spec d (victimDet r)) as [->|Hne]; [|apply Hinv].
      intros [= <-]. unfold inter_update. simpl. split; [exact H1|]. split; [exact H2|].
      destruct H3 as [[Hs _]|[Hu _]]; [left|right]; exact Hs || exact Hu.
    + intros d. unfold set_in. rewrite dget_dset.
      assert (Hf : (String.eqb (victimDet r) d && String.eqb (sourceDet r) d) = false).
      { destruct (String.eqb_spec (victimDet r) d) as [<-|]; [|reflexivity].
        simpl. apply String.eqb_neq. exact Hsv. }
      rewrite Hf.
      destruct (String.eqb_spec d (victimDet r)) as [->|Hne].
      * split.
        -- intros (e & [= <-] & Hs). left.
           destruct H3 as [[_ Hin]|[Hu _]]; [exact Hin|].
           exfalso. unfold inter_update in Hs. exact (det_set_unset _ e0 Hs Hu).
        -- intros [Hin|Hin]; [|discriminate].
           destruct H3 as [[Hs _]|[_ Hn]]; [|contradiction].
           eexists. split; [reflexivity | exact Hs].
      * split; [intros H; left; exact H | intros [H|H]; [exact H | discriminate]].
Qed.

Lemma run_lines_meta ls s s' :
  wf s -> meta_inv s -> run_lines ls s = (Return tt, s') ->
  meta_inv s' /\ (forall d, set_in s' d <-> set_in s d \/ self_seen d ls = true).
Proof.
  revert s. induction ls as [|l ls IH]; intros s Hwf Hinv H; simpl in H.
  - injection H as <-. split; [exact Hinv|]. intros d. simpl.
    split; [auto | intros [H|H]; [exact H | discriminate]].
  - apply bind_inv in H as ([] & s1 & H1 & H2).
    assert (Hstep : meta_inv s1 /\ forall d, set_in s1 d <-> set_in s d \/ line_self d l = true).
    { destruct (process_line_cases l s Hwf) as [(e & _ & He) | [(Hn & Hs) | (r & Hr & Hs)]].
      - congruence.
      - rewrite Hs in H1. injection H1 as <-. split; [exact Hinv|].
        intros d. unfold line_self. rewrite (line_record_none_of_comment l Hn). intuition discriminate.
      - rewrite Hs in H1. injection H1 as <-.
        unfold line_self. rewrite Hr. apply apply_pure_meta. exact Hinv. }
    destruct Hstep as [Hinv1 Hiff1].
    destruct (IH s1 (process_line_wf l s s1 Hwf H1) Hinv1 H2) as [Hinv' Hiff'].
    split; [exact Hinv'|]. intros d. rewrite Hiff', Hiff1. simpl.
    rewrite orb_true_iff. tauto.
Qed.

(** C4, as the code has it.  Every victim entry of [readFile]'s result has
    [hasCrosstalk = True] and [metadata['OBSTYPE'] = 'CROSSTALK'], set when
    the entry is created.  The [DETECTOR] and [DETECTOR_SERIAL] fields (top
    level and in [metadata]) are [d] and ["UNKNOWN"] when the file has a
    self-referential record of victim [d], and are all unset otherwise,
    e.g. for a victim seen only through inter-chip records. *)
Theorem metadata_detector_fields lines out d e :
  readFile lines = Return out ->
  dget d out = Some e ->
  hasCrosstalk e = true /\
  dget "OBSTYPE" (metadata e) = Some "CROSSTALK" /\
  (self_seen d lines = true ->
     DETECTOR e = Some d /\ DETECTOR_SERIAL e = Some "UNKNOWN" /\
     dget "DETECTOR" (metadata e) = Some d /\
     dget "DETECTOR_SERIAL" (metadata e) = Some "UNKNOWN") /\
  (self_seen d lines = false ->
     DETECTOR e = None /\ DETECTOR_SERIAL e = None /\
     dget "DETECTOR" (metadata e) = None /\ dget "DETECTOR_SERIAL" (metadata e) = None).
Proof.
  intros Hr He. destruct (readFile_return lines out Hr) as [Hrun _].
  destruct (run_lines_meta lines [] out wf_nil meta_inv_nil Hrun) as [Hinv Hiff].
  destruct (Hinv d e He) as (H1 & H2 & H3).
  split; [exact H1|]. split; [exact H2|]. split.
  - intros Hseen. destruct (proj2 (Hiff d) (or_intror Hseen)) as (e' & E' & Hs).
    rewrite He in E'. injection E' as <-. exact Hs.
  - intros Hno. destruct H3 as [Hs|Hu]; [|exact Hu].
    exfalso. destruct (proj1 (Hiff d) (ex_intro _ e (conj He Hs))) as [(e' & E' & _)|H].
    + discriminate.
    + congruence.
Qed.

(** ** [readFile] as a fold over its lines *)

Lemma run_lines_fold ls s s' :
  wf s -> run_lines ls s = (Return tt, s') -> s' = fold_left step_pure ls s.
Proof.
  revert s. induction ls as [|l ls IH]; intros s Hwf H; simpl in H.
  - injection H as <-. reflexivity.
  - apply bind_inv in H as ([] & s1 & H1 & H2). cbn [fold_left].
    assert (Hs1 : s1 = step_pure s l).
    { unfold step_pure.
      destruct (process_line_cases l s Hwf) as [(e & _ & He) | [(Hn & Hs) | (r & Hr & Hs)]].
      - congruence.
      - rewrite (line_record_none_of_comment l Hn). congruence.
      - rewrite Hr. congruence. }
    subst s1. apply IH; [|exact H2]. eapply process_line_wf; eassumption.
Qed.

Lemma readFile_fold lines out :
  readFile lines = Return out -> out = fold_left step_pure lines [] /\ wf out.
Proof.
  intros Hr. destruct (readFile_return lines out Hr) as [Hrun Hwf].
  split; [exact (run_lines_fold lines [] out wf_nil Hrun) | exact Hwf].
Qed.

Lemma entry0_dset_eq s k e : entry0 (dset k e s) k = e.
Proof. unfold entry0. rewrite dget_dset_eq. reflexivity. Qed.

Lemma entry0_dset_neq s k k' e : k' <> k -> entry0 (dset k e s) k' = entry0 s k'.
Proof. intros H. unfold entry0. rewrite dget_dset_neq by exact H. reflexivity. Qed.

Lemma dmem_dset {V : Type} (k k' : string) (v : V) d :
  dmem k' (dset k v d) = String.eqb k' k || dmem k' d.
Proof. unfold dmem. rewrite dget_dset. destruct (String.eqb k' k); reflexivity. Qed.

(** ** Key order *)

Lemma keys_dset {V : Type} (k : string) (v : V) (d : list (string * V)) :
  map fst (dset k v d) =
  if existsb (String.eqb k) (map fst d) then map fst d else map fst d ++ [k].
Proof.
  induction d as [|[k0 v0] d IH]; [reflexivity|].
  cbn [dset map existsb fst].
  destruct (String.eqb k k0) eqn:E; [reflexivity|].
  cbn [map fst orb]. rewrite IH. destruct (existsb (String.eqb k) (map fst d)); reflexivity.
Qed.

Lemma add_keys_app acc ks1 ks2 : add_keys acc (ks1 ++ ks2) = add_keys (add_keys acc ks1) ks2.
Proof. revert acc. induction ks1 as [|k ks1 IH]; intros acc; [reflexivity|]. apply IH. Qed.

Lemma keys_step s l : map fst (step_pure s l) = add_keys (map fst s) (victim_of l).
Proof.
  unfold step_pure, victim_of. destruct (line_record l) as [r|]; [|reflexivity].
  unfold apply_pure. cbv zeta. cbn [add_keys].
  destruct (String.eqb (sourceDet r) (victimDet r)); apply keys_dset.
Qed.

Lemma keys_fold ls s : map fst (fold_left step_pure ls s) = add_keys (map fst s) (victims ls).
Proof.
  revert s. induction ls as [|l ls IH]; intros s; [reflexivity|].
  cbn [fold_left]. rewrite IH, keys_step. unfold victims. cbn [flat_map].
  rewrite add_keys_app. reflexivity.
Qed.

Lemma ic_keys_step s l vd :
  map fst (interChip (entry0 (step_pure s l) vd)) =
  add_keys (map fst (interChip (entry0 s vd))) (inter_source_of vd l).
Proof.
  unfold step_pure, inter_source_of. destruct (line_record l) as [r|]; [|reflexivity].
  unfold apply_pure. cbv zeta.
  destruct (String.eqb_spec vd (victimDet r)) as [->|Hne].
  - rewrite String.eqb_refl. cbn [andb].
    destruct (String.eqb (sourceDet r) (victimDet r)) eqn:Es; cbn [negb add_keys];
      rewrite entry0_dset_eq; [reflexivity|].
    unfold inter_update. cbv zeta. unfold set_interChip. cbn [interChip].
    apply keys_dset.
  - assert (Hf : String.eqb (victimDet r) vd = false) by (apply String.eqb_neq; congruence).
    rewrite Hf. cbn [andb add_keys].
    destruct (String.eqb (sourceDet r) (victimDet r));
      rewrite entry0_dset_neq by exact Hne; reflexivity.
Qed.

Lemma ic_keys_fold ls s vd :
  map fst (interChip (entry0 (fold_left step_pure ls s) vd)) =
  add_keys (map fst (interChip (entry0 s vd))) (inter_sources vd ls).
Proof.
  revert s. induction ls as [|l ls IH]; intros s; [reflexivity|].
  cbn [fold_left]. rewrite IH, ic_keys_step. unfold inter_sources. cbn [flat_map].
  rewrite add_keys_app. reflexivity.
Qed.

Lemma add_keys_nodup acc ks : NoDup acc -> NoDup (add_keys acc ks).
Proof.
  revert acc. induction ks as [|k ks IH]; intros acc H; [exact H|]. cbn [add_keys].
  apply IH. destruct (existsb (String.eqb k) acc) eqn:E; [exact H|].
  apply NoDup_app; [exact H | constructor; [intros [] | constructor] |].
  intros a Ha Hin. destruct Hin as [Heq|[]]. subst a.
  assert (Hex : existsb (String.eqb k) acc = true)
    by (apply existsb_exists; exists k; split; [exact Ha | apply String.eqb_refl]).
  congruence.
Qed.

Lemma add_keys_incl acc ks L : incl acc L -> incl ks L -> incl (add_keys acc ks) L.
Proof.
  revert acc. induction ks as [|k ks IH]; intros acc Ha Hk; [exact Ha|]. cbn [add_keys].
  apply IH; [|intros x Hx; apply Hk; right; exact Hx].
  destruct (existsb (String.eqb k) acc); [exact Ha|].
  apply incl_app; [exact Ha|]. intros x [<-|[]]. apply Hk. left. reflexivity.
Qed.

Lemma dget_in_snd {V : Type} k (d : list (string * V)) v :
  dget k d = Some v -> In v (map snd d).
Proof.
  induction d as [|[k0 v0] d IH]; cbn [dget map]; [discriminate|].
  destruct (String.eqb k k0); [intros [= <-]; left; reflexivity | intros H; right; apply IH, H].
Qed.

Lemma line_record_canonical l r :
  line_record l = Some r -> In (victimDet r) canonical_names /\ In (sourceDet r) canonical_names.
Proof.
  intros Hr. apply (line_record_parse l r []) in Hr.
  apply parse_line_inv in Hr as (_ & _ & v & so & t & rest & _ & _ & _ & _ & Hv & Hs & _ & _).
  unfold canonical_names. split; eapply dget_in_snd; eassumption.
Qed.

Lemma victims_canonical lines : incl (victims lines) canonical_names.
Proof.
  intros d Hd. unfold victims in Hd. apply in_flat_map in Hd as (l & _ & Hd).
  unfold victim_of in Hd. destruct (line_record l) as [r|] eqn:E; [|destruct Hd].
  destruct Hd as [<-|[]]. apply (line_record_canonical l r E).
Qed.

Lemma inter_sources_canonical vd lines : incl (inter_sources vd lines) canonical_names.
Proof.
  intros d Hd. unfold inter_sources in Hd. apply in_flat_map in Hd as (l & _ & Hd).
  unfold inter_source_of in Hd. destruct (line_record l) as [r|] eqn:E; [|destruct Hd].
  destruct (_ && _); [|destruct Hd].
  destruct Hd as [<-|[]]. apply (line_record_canonical l r E).
Qed.

(** ** Which cells exist *)

Lemma has_cell_entry0 s vd sd :
  has_cell s vd sd = dmem vd s && (String.eqb sd vd || dmem sd (interChip (entry0 s vd))).
Proof.
  unfold has_cell, entry0. rewrite (dmem_dget vd s). destruct (dget vd s); reflexivity.
Qed.

Lemma has_cell_step s l vd sd :
  has_cell (step_pure s l) vd sd = has_cell s vd sd || line_hits vd sd l.
Proof.
  unfold step_pure, line_hits. destruct (line_record l) as [r|]; [|rewrite orb_false_r; reflexivity].
  rewrite !has_cell_entry0. unfold apply_pure. cbv zeta.
  destruct (String.eqb_spec vd (victimDet r)) as [->|Hne].
  - rewrite String.eqb_refl. cbn [andb].
    assert (Hm : forall e, dmem (victimDet r) (dset (victimDet r) e s) = true)
      by (intros e; rewrite dmem_dset, String.eqb_refl; reflexivity).
    destruct (String.eqb_spec (sourceDet r) (victimDet r)) as [Es|Es];
      rewrite Hm, entry0_dset_eq; cbn [andb].
    + change (interChip (self_update (victimDet r) (victimAmp r) (sourceAmp r) (coeff r)
                (entry0 s (victimDet r)))) with (interChip (entry0 s (victimDet r))).
      rewrite Es.
      destruct (String.eqb_spec sd (victimDet r)) as [->|Hsd].
      * rewrite ?String.eqb_refl, ?orb_true_l, ?orb_true_r. reflexivity.
      * rewrite (proj2 (String.eqb_neq (victimDet r) sd) (fun H => Hsd (eq_sym H))).
        cbn [orb]. rewrite orb_false_r.
        unfold entry0. rewrite (dmem_dget (victimDet r) s).
        destruct (dget (victimDet r) s); reflexivity.
    + unfold inter_update. cbv zeta. unfold set_interChip. cbn [interChip].
      rewrite dmem_dset.
      destruct (String.eqb_spec sd (victimDet r)) as [->|Hsd].
      * rewrite ?orb_true_l, ?orb_true_r. reflexivity.
      * cbn [orb]. rewrite (String.eqb_sym (sourceDet r) sd).
        unfold entry0. rewrite (dmem_dget (victimDet r) s).
        destruct (dget (victimDet r) s) as [e|]; cbn [andb].
        -- destruct (String.eqb sd (sourceDet r)), (dmem sd (interChip e)); reflexivity.
        -- destruct (String.eqb sd (sourceDet r)); reflexivity.
  - assert (Hf : String.eqb (victimDet r) vd = false) by (apply String.eqb_neq; congruence).
    rewrite Hf, orb_false_r.
    destruct (String.eqb (sourceDet r) (victimDet r));
      rewrite dmem_dset, entry0_dset_neq by exact Hne;
      rewrite (proj2 (String.eqb_neq _ _) Hne); reflexivity.
Qed.

Lemma has_cell_fold ls s vd sd :
  has_cell (fold_left step_pure ls s) vd sd = has_cell s vd sd || existsb (line_hits vd sd) ls.
Proof.
  revert s. induction ls as [|l ls IH]; intros s; cbn [fold_left existsb].
  - rewrite orb_false_r. reflexivity.
  - rewrite IH, has_cell_step. rewrite orb_assoc. reflexivity.
Qed.

Lemma fold_entry_fields ls s :
  (forall k e, dget k s = Some e -> nAmp e = 2 /\ crosstalkShape e = (2, 2)) ->
  forall k e, dget k (fold_left step_pure ls s) = Some e ->
    nAmp e = 2 /\ crosstalkShape e = (2, 2).
Proof.
  revert s. induction ls as [|l ls IH]; intros s Hs; cbn [fold_left]; [exact Hs|].
  apply IH. intros k e. unfold step_pure. destruct (line_record l) as [r|]; [|apply Hs].
  assert (H0 : nAmp (entry0 s (victimDet r)) = 2 /\
               crosstalkShape (entry0 s (victimDet r)) = (2, 2)).
  { unfold entry0. destruct (dget (victimDet r) s) eqn:E; [apply (Hs _ _ E) | split; reflexivity]. }
  unfold apply_pure. cbv zeta.
  destruct (String.eqb (sourceDet r) (victimDet r)); rewrite dget_dset;
    (destruct (String.eqb k (victimDet r)); [intros [= <-]; exact H0 | apply Hs]).
Qed.

Lemma nth_error_first3 {A : Type} (l : list A) i :
  i < 3 -> nth_error l i = nth_error (firstn 3 l) i.
Proof.
  intros Hi. rewrite nth_error_firstn.
  destruct (Nat.ltb_spec i 3); [reflexivity | lia].
Qed.

(** ** Further properties of [readFile] *)

(** A line whose stripped text starts with ['#'] is skipped: removing it
    changes neither the result nor the exception. *)
Theorem comment_line_skipped pre l post :
  startswith_hash (strip l) = true ->
  readFile (pre ++ l :: post) = readFile (pre ++ post) /\
  readFile_state (pre ++ l :: post) = readFile_state (pre ++ post).
Proof.
  intros H.
  assert (Hl : forall s, process_line l s = (Return tt, s)).
  { intros s. unfold process_line. rewrite (bind_ok _ _ s None s); [reflexivity|].
    unfold parse_line. cbv zeta. rewrite H. reflexivity. }
  assert (Hrun : forall s, run_lines (pre ++ l :: post) s = run_lines (pre ++ post) s).
  { intros s. rewrite !run_lines_app. unfold bind at 1 2.
    destruct (run_lines pre s) as [[[]|e] s1]; [|reflexivity].
    cbn [run_lines]. rewrite (bind_ok _ _ _ _ _ (Hl s1)). reflexivity. }
  unfold readFile, readFile_state. rewrite Hrun. split; reflexivity.
Qed.

(** A non-comment line with fewer than three whitespace-separated tokens
    (in particular an empty or blank line) makes [readFile] raise
    [IndexError] from [elem[i]], the dictionary left as the earlier lines
    built it. *)
Theorem short_line_raises pre s l post :
  run_lines pre [] = (Return tt, s) ->
  startswith_hash (strip l) = false ->
  length (split_ws (strip l)) < 3 ->
  readFile (pre ++ l :: post) = Raise IndexError /\ readFile_state (pre ++ l :: post) = s.
Proof.
  intros Hpre Hh Hlen. apply (readFile_line_raises pre s l post IndexError Hpre).
  unfold process_line. apply bind_raise.
  unfold parse_line. cbv zeta. rewrite Hh.
  destruct (split_ws (strip l)) as [|v [|so [|t rest]]]; cbn [length] in Hlen; try lia;
    reflexivity.
Qed.

(** The coefficient is converted before the amp labels and detector names
    are looked at: a third token [float] rejects makes [readFile] raise
    [ValueError] on it, whatever the first two tokens are. *)
Theorem bad_coefficient_raises pre s l post v so t rest :
  run_lines pre [] = (Return tt, s) ->
  startswith_hash (strip l) = false ->
  split_ws (strip l) = v :: so :: t :: rest ->
  py_float t = None ->
  readFile (pre ++ l :: post) = Raise (ValueError t) /\ readFile_state (pre ++ l :: post) = s.
Proof.
  intros Hpre Hh Hs Hc. apply (readFile_line_raises pre s l post _ Hpre).
  unfold process_line. apply bind_raise.
  unfold parse_line. cbv zeta. rewrite Hh, Hs.
  rewrite (bind_ok _ _ s v s) by reflexivity.
  rewrite (bind_ok _ _ s so s) by reflexivity.
  rewrite (bind_ok _ _ s t s) by reflexivity.
  apply bind_raise. unfold float_m. rewrite Hc. reflexivity.
Qed.

(** Tokens after the third are ignored: two non-comment lines with the same
    first three tokens have the same effect on the dictionary. *)
Theorem only_first_three_tokens l1 l2 :
  startswith_hash (strip l1) = false ->
  startswith_hash (strip l2) = false ->
  firstn 3 (split_ws (strip l1)) = firstn 3 (split_ws (strip l2)) ->
  forall s, process_line l1 s = process_line l2 s.
Proof.
  intros H1 H2 H3 s.
  assert (Hp : parse_line l1 s = parse_line l2 s).
  { unfold parse_line. cbv zeta. rewrite H1, H2. unfold getitem_list.
    rewrite (nth_error_first3 (split_ws (strip l1)) 0),
            (nth_error_first3 (split_ws (strip l1)) 1),
            (nth_error_first3 (split_ws (strip l1)) 2),
            (nth_error_first3 (split_ws (strip l2)) 0),
            (nth_error_first3 (split_ws (strip l2)) 1),
            (nth_error_first3 (split_ws (strip l2)) 2) by lia.
    rewrite H3. reflexivity. }
  unfold process_line. unfold bind at 1 2. rewrite Hp. reflexivity.
Qed.

(** Every entry of [readFile]'s result has [nAmp = 2],
    [crosstalkShape = (2, 2)], a 2x2 [coeffs] and 2x2 [interChip]
    matrices, and no [interChip] matrix keyed on the victim itself. *)
Theorem result_entry_shape lines out d e :
  readFile lines = Return out -> dget d out = Some e ->
  nAmp e = 2 /\ crosstalkShape e = (2, 2) /\ is_mat22 (coeffs e) /\
  dget d (interChip e) = None /\
  (forall k m, dget k (interChip e) = Some m -> is_mat22 m).
Proof.
  intros Hr He. destruct (readFile_fold lines out Hr) as [Hout Hwf].
  destruct (Hwf d e He) as (W1 & W2 & W3).
  assert (Hf : nAmp e = 2 /\ crosstalkShape e = (2, 2)).
  { rewrite Hout in He. revert He. apply fold_entry_fields. intros k e' H. discriminate. }
  destruct Hf as [F1 F2]. repeat split; assumption.
Qed.

(** The keys of [readFile]'s result are the victim detectors of the decoded
    lines, each once, in order of first appearance in the file. *)
Theorem result_key_order lines out :
  readFile lines = Return out -> map fst out = add_keys [] (victims lines).
Proof.
  intros Hr. destruct (readFile_fold lines out Hr) as [Hout _].
  rewrite Hout, keys_fold. reflexivity.
Qed.

(** The keys of a victim's [interChip] map are the source detectors of its
    inter-chip lines, each once, in order of first appearance. *)
Theorem interchip_key_order lines out vd e :
  readFile lines = Return out -> dget vd out = Some e ->
  map fst (interChip e) = add_keys [] (inter_sources vd lines).
Proof.
  intros Hr He. destruct (readFile_fold lines out Hr) as [Hout _].
  assert (He0 : entry0 out vd = e) by (unfold entry0; rewrite He; reflexivity).
  rewrite <- He0, Hout, ic_keys_fold. reflexivity.
Qed.

(** Every key of [readFile]'s result, and of each victim's [interChip] map,
    is one of the 62 canonical names of [detMap], without repetition; so the
    result has at most 62 entries. *)
Theorem result_keys_canonical lines out :
  readFile lines = Return out ->
  NoDup (map fst out) /\ incl (map fst out) canonical_names /\ length out <= 62 /\
  (forall d e, dget d out = Some e ->
     NoDup (map fst (interChip e)) /\ incl (map fst (interChip e)) canonical_names).
Proof.
  intros Hr. destruct (readFile_fold lines out Hr) as [Hout _].
  assert (Hk : map fst out = add_keys [] (victims lines)) by (rewrite Hout, keys_fold; reflexivity).
  assert (Hnd : NoDup (map fst out)) by (rewrite Hk; apply add_keys_nodup; constructor).
  assert (Hinc : incl (map fst out) canonical_names)
    by (rewrite Hk; apply add_keys_incl; [intros x [] | apply victims_canonical]).
  split; [exact Hnd|]. split; [exact Hinc|]. split.
  - rewrite <- (length_map fst out).
    change 62 with (length canonical_names). apply NoDup_incl_length; assumption.
  - intros d e He.
    assert (He0 : entry0 out d = e) by (unfold entry0; rewrite He; reflexivity).
    assert (Hi : map fst (interChip e) = add_keys [] (inter_sources d lines))
      by (rewrite <- He0, Hout, ic_keys_fold; reflexivity).
    rewrite Hi. split; [apply add_keys_nodup; constructor|].
    apply add_keys_incl; [intros x [] | apply inter_sources_canonical].
Qed.

(** What [readFile] computes, cell by cell: the matrix holding cell
    [(vd, sd)] exists exactly when some line of victim [vd] needs it (any
    line of [vd] for [coeffs], an inter-chip line from [sd] for
    [interChip[sd]]); then each of its cells holds the coefficient of the
    last line writing it, or [0.0]. *)
Theorem readFile_cells lines out vd sd i j :
  readFile lines = Return out -> i < 2 -> j < 2 ->
  has_cell out vd sd = existsb (line_hits vd sd) lines /\
  cell out vd sd i j =
    if existsb (line_hits vd sd) lines
    then Some (match last_coeff lines vd sd i j with Some c => c | None => zero end)
    else None.
Proof.
  intros Hr Hi Hj. destruct (readFile_fold lines out Hr) as [Hout Hwf].
  destruct (readFile_return lines out Hr) as [Hrun _].
  assert (Hh : has_cell out vd sd = existsb (line_hits vd sd) lines)
    by (rewrite Hout, has_cell_fold; reflexivity).
  split; [exact Hh|]. rewrite <- Hh.
  destruct (has_cell out vd sd) eqn:Ec.
  - rewrite (has_cell_value out vd sd i j Hwf Hi Hj Ec). f_equal.
    rewrite (run_lines_cellz lines [] out vd sd i j wf_nil Hrun Hi Hj). reflexivity.
  - unfold has_cell, cell in *. destruct (dget vd out) as [e|]; [|reflexivity].
    destruct (String.eqb sd vd); [discriminate|]. unfold dmem in Ec.
    destruct (dget sd (interChip e)); [discriminate | reflexivity].
Qed.

(** [makeDetectorCrosstalk] undoes itself on the entries of [readFile]'s
    result: applied twice to the same dictionary it restores it. *)
Theorem makeDetectorCrosstalk_involutive lines out d e :
  readFile lines = Return out -> dget d out = Some e ->
  makeDetectorCrosstalk (makeDetectorCrosstalk e) = e.
Proof.
  intros Hr He. destruct (readFile_fold lines out Hr) as [_ Hwf].
  destruct (Hwf d e He) as ((a & b & c & x & Hm) & _).
  destruct e as [md ic sh hc na co dt ds]. cbn [coeffs] in Hm. subst co. reflexivity.
Qed.


(** ** The driver *)

Lemma io_bind_inv {A B : Type} (m : IO A) (k : A -> IO B) w r w' :
  io_bind m k w = (r, w') ->
  (exists e, m w = (Stopped e, w') /\ r = Stopped e) \/
  (exists a w1, m w = (Done a, w1) /\ k a w1 = (r, w')).
Proof.
  unfold io_bind. destruct (m w) as [[a|e] w1].
  - intros H. right. exists a, w1. split; [reflexivity | exact H].
  - intros H. injection H as <- <-. left. exists e. split; reflexivity.
Qed.

Lemma io_bind_ok {A B : Type} (m : IO A) (k : A -> IO B) w a w1 :
  m w = (Done a, w1) -> io_bind m k w = k a w1.
Proof. unfold io_bind. intros ->. reflexivity. Qed.

Lemma writes_app l1 l2 : writes (l1 ++ l2) = writes l1 ++ writes l2.
Proof. unfold writes. apply flat_map_app. Qed.

Lemma writes_summary d e : writes (summary_events d e) = [].
Proof.
  unfold summary_events, writes. cbn [flat_map app].
  induction (interChip e) as [|p ic IH]; [reflexivity | exact IH].
Qed.

Lemma print_interChip_run ic w :
  print_interChip ic w =
  (Done tt, mkWorld (store w) (events w ++ map (fun p => PrintInterChip (fst p) (snd p)) ic)).
Proof.
  revert w. induction ic as [|[src m] ic IH]; intros w; cbn [print_interChip map].
  - rewrite app_nil_r. destruct w; reflexivity.
  - rewrite (io_bind_ok (emit _) _ w tt _ eq_refl). rewrite IH. cbn [store events fst snd].
    rewrite <- app_assoc. reflexivity.
Qed.

Lemma print_summary_run d w e :
  dget d (store w) = Some e ->
  print_summary d w = (Done tt, mkWorld (store w) (events w ++ summary_events d e)).
Proof.
  intros He. unfold print_summary.
  rewrite (io_bind_ok _ _ w e w) by (unfold io_get; rewrite He; reflexivity).
  rewrite (io_bind_ok (emit _) _ w tt _ eq_refl).
  rewrite (io_bind_ok (emit _) _ _ tt _ eq_refl).
  rewrite print_interChip_run. cbn [store events]. unfold summary_events.
  rewrite <- !app_assoc. reflexivity.
Qed.

(** The [--verbose] block changes neither [outDict] nor the files written. *)
Lemma verbose_block_inv (verbose : bool) d w r w1 :
  (if verbose then print_summary d else io_ret tt) w = (r, w1) ->
  store w1 = store w /\ writes (events w1) = writes (events w).
Proof.
  destruct verbose; [|intros [= <- <-]; split; reflexivity].
  destruct (dget d (store w)) as [e|] eqn:E.
  - rewrite (print_summary_run d w e E). intros [= <- <-]. cbn [store events].
    rewrite writes_app, writes_summary, app_nil_r. split; reflexivity.
  - unfold print_summary, io_bind at 1, io_get at 1. rewrite E.
    intros [= <- <-]. split; reflexivity.
Qed.

Lemma mdc_io_inv k e w r w1 :
  makeDetectorCrosstalk_io k e w = (r, w1) ->
  store w1 = dset k (makeDetectorCrosstalk e) (store w) /\
  (writes (events w1) = writes (events w) \/
   exists ct d, DETECTOR e = Some d /\
     writes (events w1) =
       writes (events w) ++ [(updateMetadata ct, (crosstalkDir ++ "/" ++ d ++ ".fits")%string)]) /\
  (r = Done tt -> exists d, DETECTOR e = Some d).
Proof.
  unfold makeDetectorCrosstalk_io. cbv zeta.
  rewrite (io_bind_ok (io_set _ _) _ w tt _ eq_refl).
  change (DETECTOR (makeDetectorCrosstalk e)) with (DETECTOR e).
  destruct (fromDict (makeDetectorCrosstalk e)) as [ct|]; cbn [io_lift].
  - rewrite (io_bind_ok (io_ret ct) _ _ ct _ eq_refl).
    destruct (DETECTOR e) as [d|]; cbn [io_lift].
    + rewrite (io_bind_ok (io_ret d) _ _ d _ eq_refl). intros [= <- <-]. cbn [store events].
      split; [reflexivity|]. split; [|intros _; exists d; reflexivity].
      right. exists ct, d. split; [reflexivity|]. rewrite writes_app. reflexivity.
    + intros [= <- <-]. split; [reflexivity|].
      split; [left; reflexivity | discriminate].
  - intros [= <- <-]. split; [reflexivity|]. split; [left; reflexivity | discriminate].
Qed.

Lemma mdc_io_run k e w ct d :
  fromDict (makeDetectorCrosstalk e) = Some ct -> DETECTOR e = Some d ->
  makeDetectorCrosstalk_io k e w =
  (Done tt, mkWorld (dset k (makeDetectorCrosstalk e) (store w))
              (events w ++ [WriteFits (updateMetadata ct) (crosstalkDir ++ "/" ++ d ++ ".fits")%string])).
Proof.
  intros Hct Hd. unfold makeDetectorCrosstalk_io. cbv zeta.
  rewrite (io_bind_ok (io_set _ _) _ w tt _ eq_refl).
  change (DETECTOR (makeDetectorCrosstalk e)) with (DETECTOR e).
  rewrite Hct, Hd. reflexivity.
Qed.

Lemma prepare_dir_inv dirExists force w r w1 :
  prepare_dir dirExists force w = (r, w1) ->
  store w1 = store w /\ writes (events w1) = writes (events w).
Proof.
  unfold prepare_dir.
  destruct dirExists; [destruct force|]; cbn [negb]; intros [= <- <-]; cbn [store events];
    rewrite ?writes_app; split; try reflexivity; cbn; rewrite ?app_nil_r; reflexivity.
Qed.

Lemma same_det_refl s : same_det s s.
Proof. intros k. reflexivity. Qed.

Lemma same_det_trans s1 s2 s3 : same_det s1 s2 -> same_det s2 s3 -> same_det s1 s3.
Proof. intros H1 H2 k. rewrite H1. apply H2. Qed.

Lemma same_det_dset k e s :
  dget k s = Some e -> same_det (dset k (makeDetectorCrosstalk e) s) s.
Proof.
  intros He k'. rewrite dget_dset.
  destruct (String.eqb_spec k' k) as [->|]; [rewrite He|]; reflexivity.
Qed.

Lemma same_det_get s1 s2 k e d :
  same_det s1 s2 -> dget k s1 = Some e -> DETECTOR e = Some d ->
  exists e', dget k s2 = Some e' /\ DETECTOR e' = Some d.
Proof.
  intros H He Hd. specialize (H k). rewrite He in H.
  destruct (dget k s2) as [e'|]; [|discriminate].
  injection H as H. exists e'. split; [reflexivity | congruence].
Qed.

(** What a run of the loop of lines 141-147 can do, however it ends: the
    [DETECTOR] fields of [outDict] are kept, every file written is named
    after the [DETECTOR] of a dictionary of [outDict], and a run that
    completes has found a [DETECTOR] in the dictionary of every key. *)
Lemma main_loop_inv verbose ks w r w' :
  main_loop verbose ks w = (r, w') ->
  same_det (store w') (store w) /\
  (forall ct path, In (ct, path) (writes (events w')) ->
     In (ct, path) (writes (events w)) \/
     exists k e d, dget k (store w) = Some e /\ DETECTOR e = Some d /\
       path = (crosstalkDir ++ "/" ++ d ++ ".fits")%string) /\
  (r = Done tt -> forall k, In k ks ->
     exists e d, dget k (store w) = Some e /\ DETECTOR e = Some d).
Proof.
  revert w. induction ks as [|k ks IH]; intros w H; cbn [main_loop] in H.
  - injection H as <- <-. split; [apply same_det_refl|].
    split; [intros ct path Hin; left; exact Hin | intros _ k []].
  - apply io_bind_inv in H as [(e0 & H1 & ->) | ([] & w1 & H1 & H)].
    + destruct (verbose_block_inv verbose k w _ w' H1) as [Hs Hw].
      rewrite Hs, Hw. split; [apply same_det_refl|].
      split; [intros ct path Hin; left; exact Hin | discriminate].
    + destruct (verbose_block_inv verbose k w _ w1 H1) as [Hs1 Hw1].
      apply io_bind_inv in H as [(e0 & H2 & ->) | (e & w2 & H2 & H)].
      * unfold io_get in H2. destruct (dget k (store w1)); [discriminate|].
        injection H2 as <- <-. rewrite Hs1, Hw1. split; [apply same_det_refl|].
        split; [intros ct path Hin; left; exact Hin | discriminate].
      * unfold io_get in H2. destruct (dget k (store w1)) as [e'|] eqn:Eg; [|discriminate].
        injection H2 as -> <-. rewrite Hs1 in Eg.
        apply io_bind_inv in H as [(e0 & H3 & ->) | ([] & w3 & H3 & H)].
        -- destruct (mdc_io_inv k e w1 _ w' H3) as (Hs3 & Hw3 & _).
           rewrite Hs3, Hs1. split; [apply same_det_dset, Eg|].
           split; [|discriminate].
           intros ct path Hin. destruct Hw3 as [Hw3|(ct' & d & Hd & Hw3)].
           ++ left. rewrite <- Hw1, <- Hw3. exact Hin.
           ++ rewrite Hw3, Hw1 in Hin. apply in_app_or in Hin as [Hin|[Hin|[]]].
              ** left. exact Hin.
              ** injection Hin as _ <-. right. exists k, e, d. auto.
        -- destruct (mdc_io_inv k e w1 _ w3 H3) as (Hs3 & Hw3 & Hd3).
           destruct (IH w3 H) as (Hsd & Hwr & Hc).
           assert (Hsd3 : same_det (store w3) (store w))
             by (rewrite Hs3, Hs1; apply same_det_dset, Eg).
           split; [exact (same_det_trans _ _ _ Hsd Hsd3)|]. split.
           ++ intros ct path Hin. destruct (Hwr ct path Hin) as [Hin'|(k' & e' & d & He' & Hd & ->)].
              ** destruct Hw3 as [Hw3|(ct' & d & Hd & Hw3)].
                 --- left. rewrite <- Hw1, <- Hw3. exact Hin'.
                 --- rewrite Hw3, Hw1 in Hin'. apply in_app_or in Hin' as [Hin'|[Hin'|[]]].
                     +++ left. exact Hin'.
                     +++ injection Hin' as _ <-. right. exists k, e, d. auto.
              ** destruct (same_det_get _ _ k' e' d Hsd3 He' Hd) as (e'' & He'' & Hd'').
                 right. exists k', e'', d. auto.
           ++ intros Hdone k' [<-|Hk'].
              ** destruct (Hd3 eq_refl) as [d Hd]. exists e, d. auto.
              ** destruct (Hc Hdone k' Hk') as (e' & d & He' & Hd).
                 destruct (same_det_get _ _ k' e' d Hsd3 He' Hd) as (e'' & He'' & Hd'').
                 exists e'', d. auto.
Qed.

Lemma dget_app_notin {V : Type} k (P L : list (string * V)) :
  ~ In k (map fst P) -> dget k (P ++ L) = dget k L.
Proof.
  induction P as [|[k0 v0] P IH]; intros H; cbn [app dget]; [reflexivity|].
  cbn [map fst In] in H. destruct (String.eqb_spec k k0) as [->|].
  - exfalso. apply H. left. reflexivity.
  - apply IH. intros Hin. apply H. right. exact Hin.
Qed.

Lemma dset_app_notin {V : Type} k v (P L : list (string * V)) :
  ~ In k (map fst P) -> dset k v (P ++ L) = P ++ dset k v L.
Proof.
  induction P as [|[k0 v0] P IH]; intros H; cbn [app dset]; [reflexivity|].
  cbn [map fst In] in H. destruct (String.eqb_spec k k0) as [->|].
  - exfalso. apply H. left. reflexivity.
  - rewrite IH; [reflexivity|]. intros Hin. apply H. right. exact Hin.
Qed.

Lemma dget_in_fst {V : Type} k (d : list (string * V)) v :
  dget k d = Some v -> In k (map fst d).
Proof.
  induction d as [|[k0 v0] d IH]; cbn [dget map fst]; [discriminate|].
  destruct (String.eqb_spec k k0) as [->|]; [intros _; left; reflexivity|].
  intros H. right. apply IH, H.
Qed.

Lemma in_dget_nodup {V : Type} k v (d : list (string * V)) :
  NoDup (map fst d) -> In (k, v) d -> dget k d = Some v.
Proof.
  induction d as [|[k0 v0] d IH]; intros Hnd Hin; [destruct Hin|].
  cbn [map fst] in Hnd. inversion Hnd as [|x l Hnin Hnd' ]; subst.
  cbn [dget]. destruct Hin as [Heq|Hin].
  - injection Heq as <- <-. rewrite String.eqb_refl. reflexivity.
  - destruct (String.eqb_spec k k0) as [->|]; [|apply IH; assumption].
    exfalso. apply Hnin. change k0 with (fst (k0, v)). apply in_map, Hin.
Qed.

Lemma keys_transposed P : map fst (map transposed P) = map fst P.
Proof. rewrite map_map. reflexivity. Qed.

Lemma readFile_nodup lines out : readFile lines = Return out -> NoDup (map fst out).
Proof.
  intros Hr. destruct (readFile_fold lines out Hr) as [Hout _].
  rewrite Hout, keys_fold. apply add_keys_nodup. constructor.
Qed.

(** The loop of lines 141-147 when every dictionary has its [DETECTOR]
    and [fromDict] accepts every transposed dictionary. *)
Lemma main_loop_ok verbose P T evs :
  NoDup (map fst (P ++ T)) ->
  (forall d e, In (d, e) T -> DETECTOR e = Some d) ->
  (forall d e, In (d, e) T -> exists ct, fromDict (makeDetectorCrosstalk e) = Some ct) ->
  main_loop verbose (map fst T) (mkWorld (map transposed P ++ T) evs) =
    (Done tt, mkWorld (map transposed (P ++ T)) (evs ++ flat_map (driver_events verbose) T)).
Proof.
  revert P evs. induction T as [|[d e] T IH]; intros P evs Hnd Hdet Hfd.
  - cbn [main_loop map flat_map]. rewrite !app_nil_r. reflexivity.
  - cbn [map fst main_loop].
    assert (Hnin : ~ In d (map fst P)).
    { rewrite map_app in Hnd. cbn [map fst] in Hnd. apply NoDup_remove_2 in Hnd.
      intros H. apply Hnd, in_or_app. left. exact H. }
    assert (Hnin' : ~ In d (map fst (map transposed P))) by (rewrite keys_transposed; exact Hnin).
    assert (Hget : dget d (map transposed P ++ (d, e) :: T) = Some e).
    { rewrite dget_app_notin by exact Hnin'. cbn [dget]. rewrite String.eqb_refl. reflexivity. }
    set (V := if verbose then summary_events d e else []).
    assert (Hv : (if verbose then print_summary d else io_ret tt)
                   (mkWorld (map transposed P ++ (d, e) :: T) evs) =
                 (Done tt, mkWorld (map transposed P ++ (d, e) :: T) (evs ++ V))).
    { subst V. destruct verbose; [apply print_summary_run; exact Hget|].
      rewrite app_nil_r. reflexivity. }
    rewrite (io_bind_ok _ _ _ _ _ Hv).
    rewrite (io_bind_ok _ _ _ e _) by (unfold io_get; cbn [store]; rewrite Hget; reflexivity).
    destruct (Hfd d e (or_introl eq_refl)) as [ct Hct].
    rewrite (io_bind_ok _ _ _ tt _ (mdc_io_run d e _ ct d Hct (Hdet d e (or_introl eq_refl)))).
    cbn [store events]. rewrite dset_app_notin by exact Hnin'. cbn [dset].
    rewrite String.eqb_refl.
    assert (Hst : map transposed P ++ (d, makeDetectorCrosstalk e) :: T =
                  map transposed (P ++ [(d, e)]) ++ T)
      by (rewrite map_app, <- app_assoc; reflexivity).
    rewrite Hst, IH.
    + rewrite <- app_assoc. cbn [app]. f_equal. f_equal.
      assert (Hde : driver_events verbose (d, e) =
                    V ++ [WriteFits (updateMetadata ct) (crosstalkDir ++ "/" ++ d ++ ".fits")%string])
        by (unfold driver_events; cbn [fst snd]; rewrite Hct; reflexivity).
      cbn [flat_map]. rewrite Hde, <- !app_assoc. reflexivity.
    + rewrite <- app_assoc. exact Hnd.
    + intros d' e' Hin. apply Hdet. right. exact Hin.
    + intros d' e' Hin. apply (Hfd d'). right. exact Hin.
Qed.

(** The whole script on a table it reads: when the output directory may be
    used (absent, or [--force]), every detector of [outDict] has a
    self-referential record, and [CrosstalkCalib.fromDict] accepts every
    transposed dictionary, the script prints the directory messages, then
    for each detector in [outDict]'s order the [--verbose] summary (with
    [-v]) and writes its calib to [crosstalkDir/<detector>.fits]; at the end
    every dictionary of [outDict] holds its transposed [coeffs]. *)
Theorem driver_success_trace lines dirExists verbose force out :
  readFile lines = Return out ->
  (dirExists = false \/ force = true) ->
  (forall d, In d (map fst out) -> self_seen d lines = true) ->
  (forall d e, dget d out = Some e -> exists ct, fromDict (makeDetectorCrosstalk e) = Some ct) ->
  main lines dirExists verbose force =
    (Done tt, mkWorld (map transposed out)
                      (dir_events dirExists ++ flat_map (driver_events verbose) out)).
Proof.
  intros Hr Hdir Hself Hfd.
  destruct (readFile_return lines out Hr) as [Hrun Hwf].
  destruct (run_lines_meta lines [] out wf_nil meta_inv_nil Hrun) as [Hinv Hiff].
  pose proof (readFile_nodup lines out Hr) as Hnd.
  assert (Hdet : forall d e, In (d, e) out -> DETECTOR e = Some d).
  { intros d e Hin. assert (He : dget d out = Some e) by (apply in_dget_nodup; assumption).
    assert (Hs : self_seen d lines = true)
      by (apply Hself; change d with (fst (d, e)); apply in_map, Hin).
    destruct (proj2 (Hiff d) (or_intror Hs)) as (e' & He' & Hset).
    rewrite He in He'. injection He' as <-. exact (proj1 Hset). }
  unfold main. rewrite Hr.
  rewrite (io_bind_ok _ _ _ tt (mkWorld out (dir_events dirExists)))
    by (destruct Hdir as [-> | ->]; [reflexivity | destruct dirExists; reflexivity]).
  exact (main_loop_ok verbose [] out (dir_events dirExists) Hnd Hdet
           (fun d e Hin => Hfd d e (in_dget_nodup d e out Hnd Hin))).
Qed.

(** The script writes a calib only for a detector with a self-referential
    record: every file it writes, however the run ends, is
    [crosstalkDir/<d>.fits] for a key [d] of [outDict] that some line of the
    table records as its own source; and a detector of [outDict] that only
    appears as the victim of inter-chip lines has no [DETECTOR] key, so the
    run stops (on the [KeyError] of line 27) before it completes. *)
Theorem driver_needs_self_records lines dirExists verbose force out :
  readFile lines = Return out ->
  (forall ct path,
     In (ct, path) (writes (events (snd (main lines dirExists verbose force)))) ->
     exists d, In d (map fst out) /\ self_seen d lines = true /\
       path = (crosstalkDir ++ "/" ++ d ++ ".fits")%string) /\
  (forall d, In d (map fst out) -> self_seen d lines = false ->
     fst (main lines dirExists verbose force) <> Done tt).
Proof.
  intros Hr. destruct (readFile_return lines out Hr) as [Hrun Hwf].
  destruct (run_lines_meta lines [] out wf_nil meta_inv_nil Hrun) as [Hinv Hiff].
  assert (Hdet : forall k e d, dget k out = Some e -> DETECTOR e = Some d ->
                   d = k /\ self_seen k lines = true).
  { intros k e d He Hd. destruct (Hinv k e He) as (_ & _ & [Hset|Hun]).
    - pose proof (proj1 Hset) as Hk. rewrite Hd in Hk. injection Hk as ->.
      split; [reflexivity|].
      destruct (proj1 (Hiff k) (ex_intro _ e (conj He Hset))) as [(e' & E & _)|Hs];
        [discriminate | exact Hs].
    - rewrite (proj1 Hun) in Hd. discriminate. }
  unfold main. rewrite Hr.
  destruct (prepare_dir dirExists force (mkWorld out [])) as [r1 w1] eqn:Hp.
  destruct (prepare_dir_inv dirExists force _ r1 w1 Hp) as [Hps Hpw].
  cbn [store events writes flat_map] in Hps, Hpw.
  unfold io_bind. rewrite Hp. destruct r1 as [[]|e1].
  - destruct (main_loop verbose (map fst out) w1) as [r w'] eqn:Hl. cbn [fst snd].
    destruct (main_loop_inv verbose _ w1 r w' Hl) as (_ & Hw & Hc). split.
    + intros ct path Hin. destruct (Hw ct path Hin) as [Hin'|(k & e & d & He & Hd & ->)].
      * rewrite Hpw in Hin'. destruct Hin'.
      * rewrite Hps in He. destruct (Hdet k e d He Hd) as [-> Hs].
        exists k. split; [eapply dget_in_fst; exact He|]. split; [exact Hs | reflexivity].
    + intros d Hd Hno Hdone. destruct (Hc Hdone d Hd) as (e & d' & He & Hd').
      rewrite Hps in He. destruct (Hdet d e d' He Hd') as [_ Hs]. congruence.
  - cbn [fst snd]. split.
    + intros ct path Hin. rewrite Hpw in Hin. destruct Hin.
    + intros d _ _ H. discriminate.
Qed.

End Crosstalk.

Arguments Done {A} a.
Arguments Stopped {A} e.

(** ** Witnesses and counterexamples, with [float] read as exact decimals *)

Lemma record_self_or_interchip_witness :
  let r := mkRecord Q "S29" "S30" 0 1 (Qmake 3 10000) in
  run_lines Q 0%Q decimal_float [] [] = (Return tt, []) /\
  line_record Q decimal_float "ccd01A ccd02B 0.0003" = Some r /\
  exists s', process_line Q 0%Q decimal_float "ccd01A ccd02B 0.0003" [] = (Return tt, s') /\
    (forall k, k <> victimDet Q r -> dget k s' = dget k []) /\
    exists e', dget (victimDet Q r) s' = Some e' /\
    let e0 := entry0 Q 0%Q [] (victimDet Q r) in
    (sourceDet Q r = victimDet Q r ->
       mat_setitem Q (coeffs Q e0) (victimAmp Q r) (sourceAmp Q r) (coeff Q r) = Some (coeffs Q e') /\
       interChip Q e' = interChip Q e0) /\
    (sourceDet Q r <> victimDet Q r ->
       coeffs Q e' = coeffs Q e0 /\
       exists m', mat_setitem Q (match dget (sourceDet Q r) (interChip Q e0) with
                                 | Some m => m | None => zeros22 Q 0%Q end)
                              (victimAmp Q r) (sourceAmp Q r) (coeff Q r) = Some m' /\
                  interChip Q e' = dset (sourceDet Q r) m' (interChip Q e0)).
Proof.
  intros r. split; [reflexivity|]. split; [vm_compute; reflexivity|].
  apply (record_self_or_interchip Q 0%Q decimal_float [] [] "ccd01A ccd02B 0.0003" r);
    [reflexivity | vm_compute; reflexivity].
Defined.

Lemma readFile_three_line_example_witness :
  decimal_float "0.0012" = Some (Qmake 12 10000) /\
  decimal_float "0.0009" = Some (Qmake 9 10000) /\
  decimal_float "0.0003" = Some (Qmake 3 10000) /\
  exists out e,
    readFile Q 0%Q decimal_float
      [("ccd01A ccd01B 0.0012" ++ nl)%string;
       ("ccd01B ccd01A 0.0009" ++ nl)%string;
       ("ccd01A ccd02B 0.0003" ++ nl)%string] = Return out /\
    dget "S29" out = Some e /\
    coeffs Q e = [[0%Q; Qmake 12 10000]; [Qmake 9 10000; 0%Q]] /\
    dget "S30" (interChip Q e) = Some [[0%Q; Qmake 3 10000]; [0%Q; 0%Q]] /\
    hasCrosstalk Q e = true /\
    dget "DETECTOR" (metadata Q e) = Some "S29".
Proof.
  split; [reflexivity|]. split; [reflexivity|]. split; [reflexivity|].
  apply (readFile_three_line_example Q 0%Q decimal_float); reflexivity.
Defined.

Lemma makeDetectorCrosstalk_transposes_witness :
  exists out e,
    readFile Q 0%Q decimal_float
      ["ccd01A ccd01B 0.0012"; "ccd01B ccd01A 0.0009"; "ccd01A ccd02B 0.0003"] = Return out /\
    dget "S29" out = Some e /\
    mat_get Q (coeffs Q e) 0 1 <> mat_get Q (coeffs Q e) 1 0 /\
    mat_get Q (coeffs Q (makeDetectorCrosstalk Q 0%Q e)) 0 1 = mat_get Q (coeffs Q e) 1 0 /\
    coeffs Q (makeDetectorCrosstalk Q 0%Q e) <> coeffs Q e.
Proof.
  pose (lines := ["ccd01A ccd01B 0.0012"; "ccd01B ccd01A 0.0009"; "ccd01A ccd02B 0.0003"]).
  pose (out := match readFile Q 0%Q decimal_float lines with Return o => o | Raise _ => [] end).
  pose (e := match dget "S29" out with Some e => e | None => new_entry Q 0%Q end).
  assert (Hr : readFile Q 0%Q decimal_float lines = Return out) by (cbv; reflexivity).
  assert (He : dget "S29" out = Some e) by (cbv; reflexivity).
  assert (Hne : mat_get Q (coeffs Q e) 0 1 <> mat_get Q (coeffs Q e) 1 0)
    by (cbv; intros H; inversion H).
  destruct (makeDetectorCrosstalk_transposes Q 0%Q decimal_float lines out "S29" e Hr He)
    as [Ht Hn].
  exists out, e. split; [exact Hr|]. split; [exact He|]. split; [exact Hne|].
  split; [apply Ht; auto | apply Hn; exact Hne].
Defined.

Lemma readFile_raise_atomic_witness :
  readFile Q 0%Q decimal_float
    ["ccd01A ccd01B 0.0012"; "ccd99A ccd01A 0.001"; "ccd01B ccd01A 0.0009"]
    = Raise (KeyError "ccd99") /\
  exists pre l post,
    ["ccd01A ccd01B 0.0012"; "ccd99A ccd01A 0.001"; "ccd01B ccd01A 0.0009"] = pre ++ l :: post /\
    run_lines Q 0%Q decimal_float pre [] =
      (Return tt, readFile_state Q 0%Q decimal_float
         ["ccd01A ccd01B 0.0012"; "ccd99A ccd01A 0.001"; "ccd01B ccd01A 0.0009"]) /\
    fst (parse_line Q decimal_float l []) = Raise (KeyError "ccd99") /\
    process_line Q 0%Q decimal_float l
      (readFile_state Q 0%Q decimal_float
         ["ccd01A ccd01B 0.0012"; "ccd99A ccd01A 0.001"; "ccd01B ccd01A 0.0009"]) =
      (Raise (KeyError "ccd99"),
       readFile_state Q 0%Q decimal_float
         ["ccd01A ccd01B 0.0012"; "ccd99A ccd01A 0.001"; "ccd01B ccd01A 0.0009"]).
Proof.
  split; [vm_compute; reflexivity|].
  apply (readFile_raise_atomic Q 0%Q decimal_float
           ["ccd01A ccd01B 0.0012"; "ccd99A ccd01A 0.001"; "ccd01B ccd01A 0.0009"]).
  vm_compute; reflexivity.
Defined.

Lemma blank_line_raises_witness :
  exists s,
    run_lines Q 0%Q decimal_float ["ccd01A ccd01B 0.0012"] [] = (Return tt, s) /\
    strip "   " = EmptyString /\
    readFile Q 0%Q decimal_float
      (["ccd01A ccd01B 0.0012"] ++ "   " :: ["ccd01B ccd01A 0.0009"]) = Raise IndexError.
Proof.
  pose (s := snd (run_lines Q 0%Q decimal_float ["ccd01A ccd01B 0.0012"] [])).
  assert (Hpre : run_lines Q 0%Q decimal_float ["ccd01A ccd01B 0.0012"] [] = (Return tt, s))
    by (cbv; reflexivity).
  assert (Hl : strip "   " = EmptyString) by reflexivity.
  exists s. split; [exact Hpre|]. split; [exact Hl|].
  exact (blank_line_raises Q 0%Q decimal_float ["ccd01A ccd01B 0.0012"] s "   "
           ["ccd01B ccd01A 0.0009"] Hpre Hl).
Defined.

Lemma amp_label_decoding_witness :
  startswith_hash (strip "ccd01X ccd02A 0.001") = false /\
  split_ws (strip "ccd01X ccd02A 0.001") = ["ccd01X"; "ccd02A"; "0.001"] /\
  decimal_float "0.001" = Some (Qmake 1 1000) /\
  process_line Q 0%Q decimal_float "ccd01X ccd02A 0.001" [] =
    (Raise (RuntimeError "Unknown amp: ccd01X"), []) /\
  parse_line Q decimal_float "ccdB01A ccd01A 0.001" [] = (Raise (KeyError "ccdB01"), []).
Proof.
  assert (H1 : startswith_hash (strip "ccd01X ccd02A 0.001") = false) by reflexivity.
  assert (H2 : split_ws (strip "ccd01X ccd02A 0.001") = ["ccd01X"; "ccd02A"; "0.001"])
    by reflexivity.
  assert (H3 : decimal_float "0.001" = Some (Qmake 1 1000)) by reflexivity.
  split; [exact H1|]. split; [exact H2|]. split; [exact H3|].
  destruct (amp_label_decoding Q 0%Q decimal_float "ccd01X ccd02A 0.001" "ccd01X" "ccd02A"
              "0.001" [] (Qmake 1 1000) H1 H2 H3) as [Hx _].
  split; [apply Hx; reflexivity|].
  assert (G1 : startswith_hash (strip "ccdB01A ccd01A 0.001") = false) by reflexivity.
  assert (G2 : split_ws (strip "ccdB01A ccd01A 0.001") = ["ccdB01A"; "ccd01A"; "0.001"])
    by reflexivity.
  destruct (amp_label_decoding Q 0%Q decimal_float "ccdB01A ccd01A 0.001" "ccdB01A" "ccd01A"
              "0.001" [] (Qmake 1 1000) G1 G2 H3) as (_ & _ & _ & Hp).
  rewrite (Hp [] eq_refl eq_refl). vm_compute. reflexivity.
Defined.

Lemma unknown_detector_raises_witness :
  startswith_hash (strip "ccd99A ccd01A 0.001") = false /\
  split_ws (strip "ccd99A ccd01A 0.001") = ["ccd99A"; "ccd01A"; "0.001"] /\
  decimal_float "0.001" = Some (Qmake 1 1000) /\
  dget (str_replace_empty (amp_of "ccd99A") "ccd99A") detMap = None /\
  exists k, dget k detMap = None /\
    readFile Q 0%Q decimal_float ([] ++ "ccd99A ccd01A 0.001" :: []) = Raise (KeyError k) /\
    readFile_state Q 0%Q decimal_float ([] ++ "ccd99A ccd01A 0.001" :: []) = [].
Proof.
  split; [reflexivity|]. split; [reflexivity|]. split; [reflexivity|].
  split; [vm_compute; reflexivity|].
  apply (unknown_detector_raises Q 0%Q decimal_float [] [] "ccd99A ccd01A 0.001" []
           "ccd99A" "ccd01A" "0.001" [] (Qmake 1 1000));
    [reflexivity | reflexivity | reflexivity | reflexivity | reflexivity | reflexivity |
     left; vm_compute; reflexivity].
Defined.

Lemma last_write_wins_witness :
  line_record Q decimal_float "ccd01A ccd01B 0.0012" =
    Some (mkRecord Q "S29" "S29" 0 1 (Qmake 12 10000)) /\
  line_record Q decimal_float "ccd01A ccd01B 0.0015" =
    Some (mkRecord Q "S29" "S29" 0 1 (Qmake 15 10000)) /\
  exists out,
    readFile Q 0%Q decimal_float
      ([] ++ "ccd01A ccd01B 0.0012" :: ["ccd01B ccd01A 0.0009"] ++
       "ccd01A ccd01B 0.0015" :: ["ccd01A ccd02B 0.0003"]) = Return out /\
    cell Q out "S29" "S29" 0 1 = Some (Qmake 15 10000).
Proof.
  assert (H1 : line_record Q decimal_float "ccd01A ccd01B 0.0012" =
                 Some (mkRecord Q "S29" "S29" 0 1 (Qmake 12 10000)))
    by (vm_compute; reflexivity).
  assert (H2 : line_record Q decimal_float "ccd01A ccd01B 0.0015" =
                 Some (mkRecord Q "S29" "S29" 0 1 (Qmake 15 10000)))
    by (vm_compute; reflexivity).
  split; [exact H1|]. split; [exact H2|].
  apply (last_write_wins Q 0%Q decimal_float [] "ccd01A ccd01B 0.0012"
           ["ccd01B ccd01A 0.0009"] "ccd01A ccd01B 0.0015" ["ccd01A ccd02B 0.0003"]
           _ _ H1 H2 eq_refl eq_refl eq_refl eq_refl).
  - intros l Hl. destruct Hl as [<-|[]]. vm_compute. reflexivity.
  - intros l Hl. simpl in Hl.
    repeat (destruct Hl as [<-|Hl]; [eexists; cbv; reflexivity|]). destruct Hl.
Defined.

Lemma unwritten_cells_zero_witness :
  exists out e m,
    readFile Q 0%Q decimal_float
      ["ccd01A ccd01B 0.0012"; "ccd01B ccd01A 0.0009"; "ccd01A ccd02B 0.0003"] = Return out /\
    dget "S29" out = Some e /\
    dget "S30" (interChip Q e) = Some m /\
    mat_get Q (coeffs Q e) 0 0 = Some 0%Q /\
    mat_get Q m 1 0 = Some 0%Q.
Proof.
  pose (lines := ["ccd01A ccd01B 0.0012"; "ccd01B ccd01A 0.0009"; "ccd01A ccd02B 0.0003"]).
  pose (out := match readFile Q 0%Q decimal_float lines with Return o => o | Raise _ => [] end).
  pose (e := match dget "S29" out with Some e => e | None => new_entry Q 0%Q end).
  pose (m := match dget "S30" (interChip Q e) with Some m => m | None => zeros22 Q 0%Q end).
  assert (Hr : readFile Q 0%Q decimal_float lines = Return out) by (cbv; reflexivity).
  assert (He : dget "S29" out = Some e) by (cbv; reflexivity).
  assert (Hm : dget "S30" (interChip Q e) = Some m) by (cbv; reflexivity).
  exists out, e, m. split; [exact Hr|]. split; [exact He|]. split; [exact Hm|].
  split.
  - destruct (unwritten_cells_zero Q 0%Q decimal_float lines out "S29" e 0 0 Hr He
                ltac:(lia) ltac:(lia)) as [Hz _].
    apply Hz. intros l Hl. cbv [lines In] in Hl.
    repeat (destruct Hl as [<-|Hl]; [vm_compute; reflexivity|]). destruct Hl.
  - destruct (unwritten_cells_zero Q 0%Q decimal_float lines out "S29" e 1 0 Hr He
                ltac:(lia) ltac:(lia)) as [_ Hz].
    apply (Hz "S30" m Hm). intros l Hl. cbv [lines In] in Hl.
    repeat (destruct Hl as [<-|Hl]; [vm_compute; reflexivity|]). destruct Hl.
Defined.

Lemma metadata_detector_fields_witness :
  exists out e,
    readFile Q 0%Q decimal_float ["ccd01A ccd02B 0.0003"] = Return out /\
    dget "S29" out = Some e /\
    self_seen Q decimal_float "S29" ["ccd01A ccd02B 0.0003"] = false /\
    hasCrosstalk Q e = true /\
    dget "OBSTYPE" (metadata Q e) = Some "CROSSTALK" /\
    DETECTOR Q e = None /\ dget "DETECTOR" (metadata Q e) = None.
Proof.
  pose (out := match readFile Q 0%Q decimal_float ["ccd01A ccd02B 0.0003"] with
               | Return o => o | Raise _ => [] end).
  pose (e := match dget "S29" out with Some e => e | None => new_entry Q 0%Q end).
  assert (Hr : readFile Q 0%Q decimal_float ["ccd01A ccd02B 0.0003"] = Return out)
    by (cbv; reflexivity).
  assert (He : dget "S29" out = Some e) by (cbv; reflexivity).
  assert (Hs : self_seen Q decimal_float "S29" ["ccd01A ccd02B 0.0003"] = false)
    by (vm_compute; reflexivity).
  destruct (metadata_detector_fields Q 0%Q decimal_float ["ccd01A ccd02B 0.0003"] out "S29" e
              Hr He) as (H1 & H2 & _ & H4).
  destruct (H4 Hs) as (D1 & _ & D3 & _).
  exists out, e. repeat (split; [assumption|]). exact D3.
Defined.

Lemma comment_line_skipped_witness :
  startswith_hash (strip "  # victim source coeff") = true /\
  readFile Q 0%Q decimal_float
    (["ccd01A ccd01B 0.0012"] ++ "  # victim source coeff" :: ["ccd01B ccd01A 0.0009"]) =
  readFile Q 0%Q decimal_float (["ccd01A ccd01B 0.0012"] ++ ["ccd01B ccd01A 0.0009"]) /\
  readFile_state Q 0%Q decimal_float
    (["ccd01A ccd01B 0.0012"] ++ "  # victim source coeff" :: ["ccd01B ccd01A 0.0009"]) =
  readFile_state Q 0%Q decimal_float (["ccd01A ccd01B 0.0012"] ++ ["ccd01B ccd01A 0.0009"]).
Proof.
  assert (H : startswith_hash (strip "  # victim source coeff") = true) by reflexivity.
  split; [exact H|].
  exact (comment_line_skipped Q 0%Q decimal_float ["ccd01A ccd01B 0.0012"]
           "  # victim source coeff" ["ccd01B ccd01A 0.0009"] H).
Defined.

Lemma short_line_raises_witness :
  exists s,
    run_lines Q 0%Q decimal_float ["ccd01A ccd01B 0.0012"] [] = (Return tt, s) /\
    readFile Q 0%Q decimal_float
      (["ccd01A ccd01B 0.0012"] ++ "ccd01B ccd01A" :: ["ccd01A ccd02B 0.0003"]) = Raise IndexError /\
    readFile_state Q 0%Q decimal_float
      (["ccd01A ccd01B 0.0012"] ++ "ccd01B ccd01A" :: ["ccd01A ccd02B 0.0003"]) = s.
Proof.
  pose (s := snd (run_lines Q 0%Q decimal_float ["ccd01A ccd01B 0.0012"] [])).
  assert (Hpre : run_lines Q 0%Q decimal_float ["ccd01A ccd01B 0.0012"] [] = (Return tt, s))
    by (cbv; reflexivity).
  exists s. split; [exact Hpre|].
  apply (short_line_raises Q 0%Q decimal_float ["ccd01A ccd01B 0.0012"] s "ccd01B ccd01A"
           ["ccd01A ccd02B 0.0003"] Hpre); [reflexivity | cbv; lia].
Defined.

Lemma bad_coefficient_raises_witness :
  exists s,
    run_lines Q 0%Q decimal_float ["ccd01A ccd01B 0.0012"] [] = (Return tt, s) /\
    readFile Q 0%Q decimal_float
      (["ccd01A ccd01B 0.0012"] ++ "ccd01B ccd01A 9e-4x" :: []) = Raise (ValueError "9e-4x") /\
    readFile_state Q 0%Q decimal_float
      (["ccd01A ccd01B 0.0012"] ++ "ccd01B ccd01A 9e-4x" :: []) = s.
Proof.
  pose (s := snd (run_lines Q 0%Q decimal_float ["ccd01A ccd01B 0.0012"] [])).
  assert (Hpre : run_lines Q 0%Q decimal_float ["ccd01A ccd01B 0.0012"] [] = (Return tt, s))
    by (cbv; reflexivity).
  exists s. split; [exact Hpre|].
  apply (bad_coefficient_raises Q 0%Q decimal_float ["ccd01A ccd01B 0.0012"] s
           "ccd01B ccd01A 9e-4x" [] "ccd01B" "ccd01A" "9e-4x" [] Hpre);
    [reflexivity | reflexivity | vm_compute; reflexivity].
Defined.

Lemma only_first_three_tokens_witness :
  process_line Q 0%Q decimal_float "ccd01A ccd01B 0.0012 # from the 2013 table" [] =
  process_line Q 0%Q decimal_float "ccd01A ccd01B 0.0012" [].
Proof.
  apply (only_first_three_tokens Q 0%Q decimal_float
           "ccd01A ccd01B 0.0012 # from the 2013 table" "ccd01A ccd01B 0.0012");
    reflexivity.
Defined.

Lemma result_entry_shape_witness :
  exists out e,
    readFile Q 0%Q decimal_float
      ["ccd01A ccd01B 0.0012"; "ccd01B ccd01A 0.0009"; "ccd01A ccd02B 0.0003"] = Return out /\
    dget "S29" out = Some e /\
    nAmp Q e = 2 /\ crosstalkShape Q e = (2, 2) /\ is_mat22 Q (coeffs Q e) /\
    dget "S29" (interChip Q e) = None /\
    (forall k m, dget k (interChip Q e) = Some m -> is_mat22 Q m).
Proof.
  pose (lines := ["ccd01A ccd01B 0.0012"; "ccd01B ccd01A 0.0009"; "ccd01A ccd02B 0.0003"]).
  pose (out := match readFile Q 0%Q decimal_float lines with Return o => o | Raise _ => [] end).
  pose (e := match dget "S29" out with Some e => e | None => new_entry Q 0%Q end).
  assert (Hr : readFile Q 0%Q decimal_float lines = Return out) by (cbv; reflexivity).
  assert (He : dget "S29" out = Some e) by (cbv; reflexivity).
  exists out, e. split; [exact Hr|]. split; [exact He|].
  exact (result_entry_shape Q 0%Q decimal_float lines out "S29" e Hr He).
Defined.

Lemma result_key_order_witness :
  exists out,
    readFile Q 0%Q decimal_float
      ["ccd02A ccd01B 0.001"; "ccd01A ccd01B 0.0012"; "ccd02B ccd02A 0.002"] = Return out /\
    map fst out =
      add_keys [] (victims Q decimal_float
                     ["ccd02A ccd01B 0.001"; "ccd01A ccd01B 0.0012"; "ccd02B ccd02A 0.002"]) /\
    map fst out = ["S30"; "S29"].
Proof.
  pose (lines := ["ccd02A ccd01B 0.001"; "ccd01A ccd01B 0.0012"; "ccd02B ccd02A 0.002"]).
  pose (out := match readFile Q 0%Q decimal_float lines with Return o => o | Raise _ => [] end).
  assert (Hr : readFile Q 0%Q decimal_float lines = Return out) by (cbv; reflexivity).
  exists out. split; [exact Hr|].
  pose proof (result_key_order Q 0%Q decimal_float lines out Hr) as Hk.
  split; [exact Hk|]. rewrite Hk. vm_compute. reflexivity.
Defined.

Lemma interchip_key_order_witness :
  exists out e,
    readFile Q 0%Q decimal_float
      ["ccd01A ccd03B 0.001"; "ccd01A ccd02B 0.002"; "ccd01B ccd03A 0.003"] = Return out /\
    dget "S29" out = Some e /\
    map fst (interChip Q e) =
      add_keys [] (inter_sources Q decimal_float "S29"
                     ["ccd01A ccd03B 0.001"; "ccd01A ccd02B 0.002"; "ccd01B ccd03A 0.003"]) /\
    map fst (interChip Q e) = ["S31"; "S30"].
Proof.
  pose (lines := ["ccd01A ccd03B 0.001"; "ccd01A ccd02B 0.002"; "ccd01B ccd03A 0.003"]).
  pose (out := match readFile Q 0%Q decimal_float lines with Return o => o | Raise _ => [] end).
  pose (e := match dget "S29" out with Some e => e | None => new_entry Q 0%Q end).
  assert (Hr : readFile Q 0%Q decimal_float lines = Return out) by (cbv; reflexivity).
  assert (He : dget "S29" out = Some e) by (cbv; reflexivity).
  exists out, e. split; [exact Hr|]. split; [exact He|].
  pose proof (interchip_key_order Q 0%Q decimal_float lines out "S29" e Hr He) as Hk.
  split; [exact Hk|]. rewrite Hk. vm_compute. reflexivity.
Defined.

Lemma result_keys_canonical_witness :
  exists out,
    readFile Q 0%Q decimal_float
      ["ccd01A ccd01B 0.0012"; "ccd01B ccd01A 0.0009"; "ccd01A ccd02B 0.0003"] = Return out /\
    NoDup (map fst out) /\ incl (map fst out) canonical_names /\ length out <= 62 /\
    (forall d e, dget d out = Some e ->
       NoDup (map fst (interChip Q e)) /\ incl (map fst (interChip Q e)) canonical_names).
Proof.
  pose (lines := ["ccd01A ccd01B 0.0012"; "ccd01B ccd01A 0.0009"; "ccd01A ccd02B 0.0003"]).
  pose (out := match readFile Q 0%Q decimal_float lines with Return o => o | Raise _ => [] end).
  assert (Hr : readFile Q 0%Q decimal_float lines = Return out) by (cbv; reflexivity).
  exists out. split; [exact Hr|].
  exact (result_keys_canonical Q 0%Q decimal_float lines out Hr).
Defined.

Lemma readFile_cells_witness :
  exists out,
    readFile Q 0%Q decimal_float
      ["ccd01A ccd01B 0.0012"; "ccd01B ccd01A 0.0009"; "ccd01A ccd02B 0.0003"] = Return out /\
    has_cell Q out "S29" "S30" = true /\
    cell Q out "S29" "S30" 0 1 = Some (Qmake 3 10000) /\
    has_cell Q out "S29" "S31" = false /\
    cell Q out "S29" "S31" 0 1 = None.
Proof.
  pose (lines := ["ccd01A ccd01B 0.0012"; "ccd01B ccd01A 0.0009"; "ccd01A ccd02B 0.0003"]).
  pose (out := match readFile Q 0%Q decimal_float lines with Return o => o | Raise _ => [] end).
  assert (Hr : readFile Q 0%Q decimal_float lines = Return out) by (cbv; reflexivity).
  exists out. split; [exact Hr|].
  destruct (readFile_cells Q 0%Q decimal_float lines out "S29" "S30" 0 1 Hr
              ltac:(lia) ltac:(lia)) as [H1 H2].
  destruct (readFile_cells Q 0%Q decimal_float lines out "S29" "S31" 0 1 Hr
              ltac:(lia) ltac:(lia)) as [H3 H4].
  rewrite H1, H2, H3, H4. vm_compute. repeat split; reflexivity.
Defined.

Lemma makeDetectorCrosstalk_involutive_witness :
  exists out e,
    readFile Q 0%Q decimal_float
      ["ccd01A ccd01B 0.0012"; "ccd01B ccd01A 0.0009"; "ccd01A ccd02B 0.0003"] = Return out /\
    dget "S29" out = Some e /\
    makeDetectorCrosstalk Q 0%Q e <> e /\
    makeDetectorCrosstalk Q 0%Q (makeDetectorCrosstalk Q 0%Q e) = e.
Proof.
  pose (lines := ["ccd01A ccd01B 0.0012"; "ccd01B ccd01A 0.0009"; "ccd01A ccd02B 0.0003"]).
  pose (out := match readFile Q 0%Q decimal_float lines with Return o => o | Raise _ => [] end).
  pose (e := match dget "S29" out with Some e => e | None => new_entry Q 0%Q end).
  assert (Hr : readFile Q 0%Q decimal_float lines = Return out) by (cbv; reflexivity).
  assert (He : dget "S29" out = Some e) by (cbv; reflexivity).
  exists out, e. split; [exact Hr|]. split; [exact He|].
  split; [cbv; intros H; inversion H|].
  exact (makeDetectorCrosstalk_involutive Q 0%Q decimal_float lines out "S29" e Hr He).
Defined.

Lemma driver_success_trace_witness :
  exists out,
    readFile Q 0%Q decimal_float
      ["ccd01A ccd01B 0.0012"; "ccd01B ccd01A 0.0009"; "ccd01A ccd02B 0.0003"] = Return out /\
    main Q 0%Q decimal_float (entry Q) (fun e => Some e) (fun c => c) "crosstalk"
      ["ccd01A ccd01B 0.0012"; "ccd01B ccd01A 0.0009"; "ccd01A ccd02B 0.0003"] false true false =
    (Done tt, mkWorld Q (entry Q) (map (transposed Q 0%Q) out)
                (dir_events Q (entry Q) "crosstalk" false ++
                 flat_map (driver_events Q 0%Q (entry Q) (fun e => Some e) (fun c => c)
                             "crosstalk" true) out)).
Proof.
  pose (lines := ["ccd01A ccd01B 0.0012"; "ccd01B ccd01A 0.0009"; "ccd01A ccd02B 0.0003"]).
  pose (out := match readFile Q 0%Q decimal_float lines with Return o => o | Raise _ => [] end).
  assert (Hr : readFile Q 0%Q decimal_float lines = Return out) by (cbv; reflexivity).
  exists out. split; [exact Hr|].
  assert (Ho : map fst out = ["S29"]) by (vm_compute; reflexivity).
  refine (driver_success_trace Q 0%Q decimal_float (entry Q) (fun e => Some e) (fun c => c)
            "crosstalk" lines false true false out Hr _ _ _).
  - left. reflexivity.
  - intros d Hd. rewrite Ho in Hd. destruct Hd as [<-|[]]. vm_compute. reflexivity.
  - intros d e _. eexists. reflexivity.
Defined.

Lemma driver_needs_self_records_witness :
  exists out,
    readFile Q 0%Q decimal_float ["ccd01A ccd02B 0.0003"] = Return out /\
    In "S29" (map fst out) /\
    self_seen Q decimal_float "S29" ["ccd01A ccd02B 0.0003"] = false /\
    fst (main Q 0%Q decimal_float (entry Q) (fun e => Some e) (fun c => c) "crosstalk"
           ["ccd01A ccd02B 0.0003"] false false false) <> Done tt.
Proof.
  pose (out := match readFile Q 0%Q decimal_float ["ccd01A ccd02B 0.0003"] with
               | Return o => o | Raise _ => [] end).
  assert (Hr : readFile Q 0%Q decimal_float ["ccd01A ccd02B 0.0003"] = Return out)
    by (cbv; reflexivity).
  assert (Hin : In "S29" (map fst out)) by (vm_compute; left; reflexivity).
  assert (Hs : self_seen Q decimal_float "S29" ["ccd01A ccd02B 0.0003"] = false)
    by (vm_compute; reflexivity).
  exists out. split; [exact Hr|]. split; [exact Hin|]. split; [exact Hs|].
  destruct (driver_needs_self_records Q 0%Q decimal_float (entry Q) (fun e => Some e)
              (fun c => c) "crosstalk" ["ccd01A ccd02B 0.0003"] false false false out Hr)
    as [_ Hno].
  exact (Hno "S29" Hin Hs).
Defined.

(** A victim met only through an inter-chip record already carries
    [OBSTYPE = 'CROSSTALK'] in its metadata: that key is written when the entry
    is created, not when a self-referential record is seen. *)
Lemma metadata_obstype_counterexample :
  exists out e,
    readFile Q 0%Q decimal_float ["ccd01A ccd02B 0.0003"] = Return out /\
    dget "S29" out = Some e /\
    self_seen Q decimal_float "S29" ["ccd01A ccd02B 0.0003"] = false /\
    dget "OBSTYPE" (metadata Q e) = Some "CROSSTALK".
Proof.
  eexists. eexists. split; [vm_compute; reflexivity|].
  split; [vm_compute; reflexivity|]. split; vm_compute; reflexivity.
Qed.

(** A trailing blank line makes [readFile] raise, while the same file without
    it is read. *)
Lemma blank_line_counterexample :
  readFile Q 0%Q decimal_float ["ccd01A ccd01B 0.0012"; ""] = Raise IndexError /\
  readFile Q 0%Q decimal_float ["ccd01A ccd01B 0.0012"; "   "] = Raise IndexError /\
  exists out, readFile Q 0%Q decimal_float ["ccd01A ccd01B 0.0012"] = Return out.
Proof.
  split; [vm_compute; reflexivity|]. split; [vm_compute; reflexivity|].
  eexists. vm_compute. reflexivity.
Qed.

(** On the token ["ccdB01A"], where ['B'] comes first, the code decodes amp
    ['A'] and looks up the label ["ccdB01"]; the first occurrence would give
    ['B'] and the label ["ccd01A"]. *)
Lemma amp_label_counterexample :
  fst (decode_amp Q "ccdB01A" []) = Return "A" /\
  spec_first_amp "ccdB01A" = Some "B" /\
  readFile Q 0%Q decimal_float ["ccdB01A ccd01A 0.001"] = Raise (KeyError "ccdB01").
Proof.
  split; [reflexivity|]. split; [reflexivity|]. vm_compute. reflexivity.
Qed.
